(** * Payment orchestration backend: a shallow embedding and its properties

    The development follows the TypeScript sources:
    - [types/payment.types.ts]   enums and wire records,
    - [models/Transaction.ts]    the ledger entity,
    - [connectors/MoyasarConnector.ts]
    - [services/PaymentService.ts]
    - [controllers/PaymentController.ts], [controllers/WebhookController.ts].

    Asynchronous methods become computations in a state-and-exception
    monad over the [World] (ledger rows, merchants, the HTTP requests sent
    to merchant endpoints). Everything the code reaches outside the
    repository (the provider's REST API, [crypto], [JSON.stringify], the
    uuid generator, [process.env]) is a field of [Env]. *)

From Stdlib Require Import String Ascii List Bool ZArith QArith Qround Lia.
From Stdlib Require Import Floats Uint63.
From Stdlib Require Import Permutation.
Import ListNotations.

Local Open Scope string_scope.
Local Open Scope Z_scope.

(** ** JavaScript values used by the code *)

(** A JS [number] holding a money amount. The amounts the code compares are
    decimals; they are modelled as exact rationals. ([Binary64] below
    runs the two unit conversions on doubles.) *)
Definition number := Q.

(** [Math.round]: the nearest integer, ties towards plus infinity. *)
Definition Math_round (x : number) : Z := Qfloor (x + (1 # 2)).

(** Truthiness of the operands of [||], [&&], [?:] and [if]. *)
Definition truthy_number (x : number) : bool := negb (Qeq_bool x 0).

Definition truthy_string (s : string) : bool :=
  match s with EmptyString => false | String _ _ => true end.

Definition truthy_opt {A} (truthy : A -> bool) (o : option A) : bool :=
  match o with Some a => truthy a | None => false end.

(** [a || b] on optional strings and numbers. *)
Definition or_string (o : option string) (d : string) : string :=
  match o with
  | Some s => if truthy_string s then s else d
  | None => d
  end.

Definition or_number (o : option number) (d : number) : number :=
  match o with
  | Some x => if truthy_number x then x else d
  | None => d
  end.

(** [s.includes(sub)] *)
Definition includes (s sub : string) : bool :=
  match String.index 0 sub s with Some _ => true | None => false end.

(** [s.slice(-4)] *)
Definition slice_last4 (s : string) : string :=
  let n := String.length s in
  String.substring (n - 4)%nat 4 s.

(** ** types/payment.types.ts *)

Inductive PaymentStatus :=
  | PENDING | PROCESSING | AUTHORIZED | PAID
  | FAILED | REFUNDED | PARTIALLY_REFUNDED | VOIDED.

Inductive PaymentMethod := CREDITCARD | MADA | APPLEPAY | STC_PAY.

Inductive PSPProvider := MOYASAR | HYPERPAY | TAP | CHECKOUT.

Inductive Currency := SAR | USD | AED.

Definition PaymentStatus_eqb (a b : PaymentStatus) : bool :=
  match a, b with
  | PENDING, PENDING | PROCESSING, PROCESSING | AUTHORIZED, AUTHORIZED
  | PAID, PAID | FAILED, FAILED | REFUNDED, REFUNDED
  | PARTIALLY_REFUNDED, PARTIALLY_REFUNDED | VOIDED, VOIDED => true
  | _, _ => false
  end.

(** The string value of each enum member. *)
Definition PSPProvider_value (p : PSPProvider) : string :=
  match p with
  | MOYASAR => "moyasar" | HYPERPAY => "hyperpay"
  | TAP => "tap" | CHECKOUT => "checkout"
  end.

Definition Metadata := list (string * string).

Module PaymentSource.
Record t := {
  type : PaymentMethod;
  number : option string;
  name : option string;
  month : option string;
  year : option string;
  cvc : option string;
  token : option string
}.
End PaymentSource.

Module PaymentRequest.
Record t := {
  amount : number;
  currency : Currency;
  description : option string;
  callback_url : option string;
  source : option PaymentSource.t;
  metadata : option Metadata
}.
End PaymentRequest.

(** What a variable declared [PaymentStatus] holds after [mapStatus]: a
    member of the enum, or a member of [Object.prototype] reached through
    the lookup table's prototype chain. *)
Inductive StatusValue :=
  | Canonical (s : PaymentStatus)
  | Inherited (key : string).

Module ResponseSource.
Record t := {
  type : string;
  company : option string;
  name : option string;
  number : option string;
  gateway_id : option string;
  reference_number : option string;
  token : option string
}.
End ResponseSource.

Module PaymentResponse.
Record t := {
  id : string;
  status : StatusValue;
  amount : number;
  currency : string;
  fee : option number;
  source : option ResponseSource.t;
  created_at : string;
  updated_at : option string;
  description : option string;
  metadata : option Metadata;
  callback_url : option string
}.

  (** [{ ...r, id: i }] *)
Definition with_id (r : t) (i : string) : t :=
    {| id := i; status := status r; amount := amount r;
       currency := currency r; fee := fee r; source := source r;
       created_at := created_at r; updated_at := updated_at r;
       description := description r; metadata := metadata r;
       callback_url := callback_url r |}.
End PaymentResponse.

Module RefundRequest.
Record t := {
  amount : option number;
  reason : option string
}.
End RefundRequest.

Module RefundResponse.
Record t := {
  id : string;
  payment_id : string;
  amount : number;
  status : string;
  created_at : string
}.
End RefundResponse.

(** ** The provider's wire format (the [any] values of the connector) *)

Module MoyasarPayment.
Record t := {
  id : string;
  status : string;
  amount : number;            (* halalas *)
  currency : string;
  fee : option number;        (* halalas *)
  source : option ResponseSource.t;
  created_at : string;
  updated_at : option string;
  description : option string;
  metadata : option Metadata;
  callback_url : option string
}.
End MoyasarPayment.

Inductive PayloadSource :=
  | TokenSource (token : string)
  | CardSource (type : PaymentMethod)
               (name number month year cvc : option string).

Module MoyasarPayload.
Record t := {
  amount : Z;                 (* halalas *)
  currency : Currency;
  description : string;
  callback_url : option string;
  source : option PayloadSource;
  metadata : option Metadata
}.
End MoyasarPayload.

Module RefundPayload.
Record t := {
  amount : option Z;          (* halalas *)
  description : option string
}.
End RefundPayload.

Module MoyasarRefund.
Record t := {
  id : string;
  amount : number;            (* halalas *)
  status : string;
  created_at : string
}.
End MoyasarRefund.

(** An axios failure: [error.response.data] when the provider answered,
    and [error.message]. *)
Module MoyasarErrorData.
Record t := {
  message : option string;
  error : option string;
  type : option string
}.
End MoyasarErrorData.

Module AxiosError.
Record t := {
  response : option MoyasarErrorData.t;
  message : string
}.
End AxiosError.

(** A thrown [Error], identified by its [message]. *)
Definition JsError := string.

(** ** models/Transaction.ts and the merchant entity *)

Module Transaction.
Record t := {
  id : string;
  merchant_id : string;
  psp_provider : PSPProvider;
  psp_transaction_id : option string;     (* nullable *)
  amount : number;                        (* major units *)
  currency : Currency;
  status : PaymentStatus;                 (* enum column *)
  payment_method : PaymentMethod;
  card_token : option string;
  card_brand : option string;
  card_last_four : option string;
  description : option string;
  fee : number;
  metadata : option Metadata;
  callback_url : option string;
  error_message : option string;
  psp_reference_number : option string;
  created_at : string
}.

(** [transaction.status = s] *)
Definition set_status (tx : t) (s : PaymentStatus) : t :=
  {| id := id tx; merchant_id := merchant_id tx;
     psp_provider := psp_provider tx;
     psp_transaction_id := psp_transaction_id tx;
     amount := amount tx; currency := currency tx; status := s;
     payment_method := payment_method tx; card_token := card_token tx;
     card_brand := card_brand tx; card_last_four := card_last_four tx;
     description := description tx; fee := fee tx;
     metadata := metadata tx; callback_url := callback_url tx;
     error_message := error_message tx;
     psp_reference_number := psp_reference_number tx;
     created_at := created_at tx |}.

(** [transaction.error_message = m] *)
Definition set_error_message (tx : t) (m : string) : t :=
  {| id := id tx; merchant_id := merchant_id tx;
     psp_provider := psp_provider tx;
     psp_transaction_id := psp_transaction_id tx;
     amount := amount tx; currency := currency tx; status := status tx;
     payment_method := payment_method tx; card_token := card_token tx;
     card_brand := card_brand tx; card_last_four := card_last_four tx;
     description := description tx; fee := fee tx;
     metadata := metadata tx; callback_url := callback_url tx;
     error_message := Some m;
     psp_reference_number := psp_reference_number tx;
     created_at := created_at tx |}.

(** The row written by an INSERT: the generated primary key and the
    [@CreateDateColumn]. (The [@UpdateDateColumn] is managed by the database
    and read nowhere in the code; it is left out.) *)
Definition inserted (tx : t) (i now : string) : t :=
  {| id := i; merchant_id := merchant_id tx;
     psp_provider := psp_provider tx;
     psp_transaction_id := psp_transaction_id tx;
     amount := amount tx; currency := currency tx; status := status tx;
     payment_method := payment_method tx; card_token := card_token tx;
     card_brand := card_brand tx; card_last_four := card_last_four tx;
     description := description tx; fee := fee tx;
     metadata := metadata tx; callback_url := callback_url tx;
     error_message := error_message tx;
     psp_reference_number := psp_reference_number tx;
     created_at := now |}.
End Transaction.

Module Merchant.
Record t := {
  id : string;
  name : string;
  email : string;
  api_key : string;
  webhook_url : option string;
  webhook_secret : option string;
  active : bool
}.
End Merchant.

(** The [data] of a provider event. *)
Module PaymentData.
Record t := {
  id : string;
  message : option string;
  refunded_amount : option number         (* halalas; absent gives NaN *)
}.
End PaymentData.

(** The envelope forwarded to a merchant's endpoint. *)
Module MerchantWebhook.
Record t := {
  event : string;
  transaction_id : string;
  status : PaymentStatus;
  amount : number;
  currency : Currency;
  created_at : string;
  psp_provider : PSPProvider;
  metadata : option Metadata;
  original_data : PaymentData.t
}.
End MerchantWebhook.

(** One [axios.post] to a merchant endpoint. *)
Module Delivery.
Record t := {
  url : string;
  payload : MerchantWebhook.t;
  signature : string
}.
End Delivery.

(** ** Inbound provider webhooks *)

Module WebhookEvent.
Record t := {
  type : string;
  data : PaymentData.t;
  created_at : string
}.
End WebhookEvent.

Module WebhookRequest.
Record t := {
  x_moyasar_signature : option string;    (* req.headers[...] *)
  body : WebhookEvent.t
}.
End WebhookRequest.

(** ** The world: what the methods read and write *)

Module World.
Record t := {
  transactions : list Transaction.t;
  merchants : list Merchant.t;
  outbox : list Delivery.t
}.
End World.

(** ** External collaborators *)

Module Env.
Record t := {
  MOYASAR_WEBHOOK_SECRET : option string;
  (* crypto.createHmac('sha256', secret).update(data).digest('hex') *)
  hmac_sha256_hex : string -> string -> string;
  stringify_event : WebhookEvent.t -> string;
  stringify_envelope : MerchantWebhook.t -> string;
  (* the provider's REST API *)
  post_payments : MoyasarPayload.t -> AxiosError.t + MoyasarPayment.t;
  get_payments : string -> AxiosError.t + MoyasarPayment.t;
  post_refund : string -> RefundPayload.t -> AxiosError.t + MoyasarRefund.t;
  (* the merchant's endpoint: [None] when the POST succeeds *)
  merchant_endpoint : Delivery.t -> option JsError;
  (* @PrimaryGeneratedColumn('uuid') and the database clock *)
  uuid : list Transaction.t -> string;
  now : string
}.
End Env.

(** ** Asynchronous computations *)

Inductive Completion (A : Type) :=
  | Returned (a : A)
  | Thrown (e : JsError).
Arguments Returned {A} a.
Arguments Thrown {A} e.

Definition Async (A : Type) : Type := World.t -> Completion A * World.t.

Definition ret {A} (a : A) : Async A := fun w => (Returned a, w).

Definition throw {A} (e : JsError) : Async A := fun w => (Thrown e, w).

Definition bind {A B} (m : Async A) (k : A -> Async B) : Async B :=
  fun w =>
    match m w with
    | (Returned a, w') => k a w'
    | (Thrown e, w') => (Thrown e, w')
    end.

(** [try { m } catch (error) { handler error }] *)
Definition try_catch {A} (m : Async A) (handler : JsError -> Async A)
  : Async A :=
  fun w =>
    match m w with
    | (Returned a, w') => (Returned a, w')
    | (Thrown e, w') => handler e w'
    end.

(** Lifting the synchronous completion of a connector call. *)
Definition await {A} (c : Completion A) : Async A := fun w => (c, w).

Declare Scope async_scope.
Delimit Scope async_scope with async.
Notation "x <- m ;; k" := (bind m (fun x => k))
  (at level 61, m at next level, right associativity) : async_scope.
Notation "m ;;; k" := (bind m (fun _ => k))
  (at level 61, right associativity) : async_scope.
Local Open Scope async_scope.

(** ** connectors/MoyasarConnector.ts *)

Module MoyasarConnector.

(** The own properties of the object literal [statusMap]. *)
Definition statusMap : list (string * PaymentStatus) :=
  [ ("initiated", PENDING);
    ("pending", PENDING);
    ("processing", PROCESSING);
    ("authorized", AUTHORIZED);
    ("paid", PAID);
    ("failed", FAILED);
    ("refunded", REFUNDED);
    ("partially_refunded", PARTIALLY_REFUNDED);
    ("voided", VOIDED) ].

(** The properties an object literal inherits from [Object.prototype];
    each holds a function or an object, hence a truthy value. *)
Definition Object_prototype : list string :=
  [ "constructor"; "__defineGetter__"; "__defineSetter__";
    "hasOwnProperty"; "__lookupGetter__"; "__lookupSetter__";
    "isPrototypeOf"; "propertyIsEnumerable"; "toString"; "valueOf";
    "__proto__"; "toLocaleString" ].

Fixpoint own_property (o : list (string * PaymentStatus)) (key : string)
  : option PaymentStatus :=
  match o with
  | [] => None
  | (k, v) :: rest => if String.eqb k key then Some v else own_property rest key
  end.

Definition in_table (key : string) : bool :=
  match own_property statusMap key with Some _ => true | None => false end.

Definition inherited (key : string) : bool :=
  existsb (String.eqb key) Object_prototype.

(** [statusMap[moyasarStatus] || PaymentStatus.FAILED]: the property
    access finds an own property, else walks to [Object.prototype]; every
    enum value is a non-empty string, so only [undefined] is falsy. *)
Definition mapStatus (moyasarStatus : string) : StatusValue :=
  match own_property statusMap moyasarStatus with
  | Some s => Canonical s
  | None =>
      if inherited moyasarStatus then Inherited moyasarStatus
      else Canonical FAILED
  end.

(** [Math.round(amount * 100)]: major units to halalas. *)
Definition toHalalas (amount : number) : Z := Math_round (amount * 100)%Q.

(** [amount / 100]: halalas to major units. *)
Definition fromHalalas (amount : number) : number := (amount / 100)%Q.

Definition buildPaymentPayload (request : PaymentRequest.t)
  : MoyasarPayload.t :=
  {| MoyasarPayload.amount := toHalalas (PaymentRequest.amount request);
     MoyasarPayload.currency := PaymentRequest.currency request;
     MoyasarPayload.description :=
       or_string (PaymentRequest.description request) "Payment";
     MoyasarPayload.callback_url := PaymentRequest.callback_url request;
     MoyasarPayload.source :=
       match PaymentRequest.source request with
       | Some source =>
           if truthy_opt truthy_string (PaymentSource.token source) then
             match PaymentSource.token source with
             | Some token => Some (TokenSource token)
             | None => None
             end
           else if truthy_opt truthy_string (PaymentSource.number source) then
             Some (CardSource (PaymentSource.type source)
                     (PaymentSource.name source)
                     (PaymentSource.number source)
                     (PaymentSource.month source)
                     (PaymentSource.year source)
                     (PaymentSource.cvc source))
           else None
       | None => None
       end;
     MoyasarPayload.metadata := PaymentRequest.metadata request |}.

Definition mapMoyasarResponse (moyasarPayment : MoyasarPayment.t)
  : PaymentResponse.t :=
  {| PaymentResponse.id := MoyasarPayment.id moyasarPayment;
     PaymentResponse.status := mapStatus (MoyasarPayment.status moyasarPayment);
     PaymentResponse.amount := fromHalalas (MoyasarPayment.amount moyasarPayment);
     PaymentResponse.currency := MoyasarPayment.currency moyasarPayment;
     PaymentResponse.fee :=
       match MoyasarPayment.fee moyasarPayment with
       | Some fee => if truthy_number fee then Some (fromHalalas fee) else None
       | None => None
       end;
     PaymentResponse.source := MoyasarPayment.source moyasarPayment;
     PaymentResponse.created_at := MoyasarPayment.created_at moyasarPayment;
     PaymentResponse.updated_at := MoyasarPayment.updated_at moyasarPayment;
     PaymentResponse.description := MoyasarPayment.description moyasarPayment;
     PaymentResponse.metadata := MoyasarPayment.metadata moyasarPayment;
     PaymentResponse.callback_url := MoyasarPayment.callback_url moyasarPayment |}.

Definition handleError (error : AxiosError.t) : JsError :=
  match AxiosError.response error with
  | Some moyasarError =>
      let errorMessage :=
        or_string (MoyasarErrorData.message moyasarError)
          (or_string (MoyasarErrorData.error moyasarError)
             "Unknown Moyasar error") in
      "Moyasar Error: " ++ errorMessage
  | None => AxiosError.message error
  end.

Section Calls.
Variable env : Env.t.

Definition createPayment (request : PaymentRequest.t)
  : Completion PaymentResponse.t :=
  let payload := buildPaymentPayload request in
  match Env.post_payments env payload with
  | inr data => Returned (mapMoyasarResponse data)
  | inl error => Thrown (handleError error)
  end.

Definition getPayment (paymentId : string) : Completion PaymentResponse.t :=
  match Env.get_payments env paymentId with
  | inr data => Returned (mapMoyasarResponse data)
  | inl error => Thrown (handleError error)
  end.

Definition refundPayment (paymentId : string)
    (refundRequest : option RefundRequest.t)
  : Completion RefundResponse.t :=
  let amount :=
    match refundRequest with
    | Some r => RefundRequest.amount r
    | None => None
    end in
  let reason :=
    match refundRequest with
    | Some r => RefundRequest.reason r
    | None => None
    end in
  let payload :=
    {| RefundPayload.amount :=
         match amount with
         | Some a => if truthy_number a then Some (toHalalas a) else None
         | None => None
         end;
       RefundPayload.description :=
         if truthy_opt truthy_string reason then reason else None |} in
  match Env.post_refund env paymentId payload with
  | inr data =>
      Returned
        {| RefundResponse.id := MoyasarRefund.id data;
           RefundResponse.payment_id := paymentId;
           RefundResponse.amount := fromHalalas (MoyasarRefund.amount data);
           RefundResponse.status := MoyasarRefund.status data;
           RefundResponse.created_at := MoyasarRefund.created_at data |}
  | inl error => Thrown (handleError error)
  end.

Definition verifyWebhookSignature (payload signature secret : string) : bool :=
  let calculatedSignature := Env.hmac_sha256_hex env secret payload in
  String.eqb calculatedSignature signature.

End Calls.
End MoyasarConnector.

(** ** The repositories *)

Module Repository.

Definition has_id (i : string) (tx : Transaction.t) : bool :=
  String.eqb (Transaction.id tx) i.

Definition has_psp_transaction_id (i : string) (tx : Transaction.t) : bool :=
  match Transaction.psp_transaction_id tx with
  | Some p => String.eqb p i
  | None => false
  end.

(** [findOne({ where: { id } })] *)
Definition findOne_id (i : string) : Async (option Transaction.t) :=
  fun w => (Returned (find (has_id i) (World.transactions w)), w).

(** [findOne({ where: { psp_transaction_id } })] *)
Definition findOne_psp_transaction_id (i : string)
  : Async (option Transaction.t) :=
  fun w => (Returned (find (has_psp_transaction_id i) (World.transactions w)), w).

Definition findOne_merchant (i : string) : Async (option Merchant.t) :=
  fun w =>
    (Returned (find (fun m => String.eqb (Merchant.id m) i) (World.merchants w)),
     w).

Definition with_transactions (w : World.t) (rows : list Transaction.t)
  : World.t :=
  {| World.transactions := rows;
     World.merchants := World.merchants w;
     World.outbox := World.outbox w |}.

Definition replace_row (tx : Transaction.t) (rows : list Transaction.t)
  : list Transaction.t :=
  map (fun r => if has_id (Transaction.id tx) r then tx else r) rows.

(** [save(entity)] for an entity loaded by [findOne]: it carries its
    primary key, so the row with that key is UPDATEd; resolves to the
    entity. *)
Definition save (tx : Transaction.t) : Async Transaction.t :=
  fun w =>
    (Returned tx, with_transactions w (replace_row tx (World.transactions w))).

Section Insert.
Variable env : Env.t.

(** [save(entity)] for an entity built by [create(...)]: it has no
    primary key, so a row is INSERTed under a generated key; resolves to
    the entity with its key filled in. *)
Definition insert (tx : Transaction.t) : Async Transaction.t :=
  fun w =>
    let rows := World.transactions w in
    let row := Transaction.inserted tx (Env.uuid env rows) (Env.now env) in
    (Returned row, with_transactions w (rows ++ [row])).

End Insert.

(** The [status] column is a database enum over [PaymentStatus]: a value
    outside the enum is refused when the row is written. *)
Definition enum_column (v : StatusValue) : Async PaymentStatus :=
  match v with
  | Canonical s => ret s
  | Inherited _ => throw "invalid input value for enum transactions_status_enum"
  end.

End Repository.

(** ** services/PaymentService.ts *)

Module PaymentService.

(** The methods the service calls on a connector. *)
Record Connector := {
  connector_createPayment : PaymentRequest.t -> Completion PaymentResponse.t;
  connector_getPayment : string -> Completion PaymentResponse.t;
  connector_refundPayment :
    string -> option RefundRequest.t -> Completion RefundResponse.t
}.

(** A [null] key interpolated into the request path. *)
Definition path_segment (o : option string) : string :=
  match o with Some s => s | None => "null" end.

(** [pspResponse.status !== transaction.status] *)
Definition status_differs (v : StatusValue) (s : PaymentStatus) : bool :=
  match v with
  | Canonical s' => negb (PaymentStatus_eqb s' s)
  | Inherited _ => true
  end.

Section Service.
Variable env : Env.t.

Definition moyasarConnector : Connector :=
  {| connector_createPayment := MoyasarConnector.createPayment env;
     connector_getPayment := MoyasarConnector.getPayment env;
     connector_refundPayment := MoyasarConnector.refundPayment env |}.

Definition selectPSP (request : PaymentRequest.t) : Async PSPProvider :=
  match PaymentRequest.source request with
  | Some source =>
      match PaymentSource.type source with
      | MADA => ret MOYASAR
      | _ => ret MOYASAR
      end
  | None => ret MOYASAR
  end.

Definition getPSPConnector (provider : PSPProvider) : Completion Connector :=
  match provider with
  | MOYASAR => Returned moyasarConnector
  | _ => Thrown ("Unsupported PSP provider: " ++ PSPProvider_value provider)
  end.

Definition createPayment (merchantId : string) (request : PaymentRequest.t)
  : Async PaymentResponse.t :=
  try_catch
    (selectedPSP <- selectPSP request ;;
     connector <- await (getPSPConnector selectedPSP) ;;
     pspResponse <- await (connector_createPayment connector request) ;;
     let source := PaymentResponse.source pspResponse in
     status <- Repository.enum_column (PaymentResponse.status pspResponse) ;;
     let transaction :=
       {| Transaction.id := "";
          Transaction.merchant_id := merchantId;
          Transaction.psp_provider := selectedPSP;
          Transaction.psp_transaction_id := Some (PaymentResponse.id pspResponse);
          Transaction.amount := PaymentRequest.amount request;
          Transaction.currency := PaymentRequest.currency request;
          Transaction.status := status;
          Transaction.payment_method :=
            match PaymentRequest.source request with
            | Some s => PaymentSource.type s
            | None => CREDITCARD
            end;
          Transaction.card_token :=
            match source with Some s => ResponseSource.token s | None => None end;
          Transaction.card_brand :=
            match source with Some s => ResponseSource.company s | None => None end;
          Transaction.card_last_four :=
            match source with
            | Some s => option_map slice_last4 (ResponseSource.number s)
            | None => None
            end;
          Transaction.description := PaymentRequest.description request;
          Transaction.fee := 0%Q;
          Transaction.metadata := PaymentRequest.metadata request;
          Transaction.callback_url := PaymentRequest.callback_url request;
          Transaction.error_message := None;
          Transaction.psp_reference_number := None;
          Transaction.created_at := "" |} in
     transaction <- Repository.insert env transaction ;;
     ret (PaymentResponse.with_id pspResponse (Transaction.id transaction)))
    (fun error => throw ("Failed to create payment: " ++ error)).

Definition getPayment (transactionId : string) : Async PaymentResponse.t :=
  try_catch
    (found <- Repository.findOne_id transactionId ;;
     match found with
     | None => throw "Transaction not found"
     | Some transaction =>
         connector <- await (getPSPConnector (Transaction.psp_provider transaction)) ;;
         pspResponse <-
           await (connector_getPayment connector
                    (path_segment (Transaction.psp_transaction_id transaction))) ;;
         (if status_differs (PaymentResponse.status pspResponse)
               (Transaction.status transaction)
          then
            status <- Repository.enum_column (PaymentResponse.status pspResponse) ;;
            Repository.save (Transaction.set_status transaction status) ;;;
            ret tt
          else ret tt) ;;;
         ret (PaymentResponse.with_id pspResponse (Transaction.id transaction))
     end)
    (fun error => throw ("Failed to get payment: " ++ error)).

Definition refundPayment (transactionId : string)
    (refundRequest : option RefundRequest.t)
  : Async RefundResponse.t :=
  try_catch
    (found <- Repository.findOne_id transactionId ;;
     match found with
     | None => throw "Transaction not found"
     | Some transaction =>
         if negb (PaymentStatus_eqb (Transaction.status transaction) PAID)
         then throw "Only paid transactions can be refunded"
         else
           connector <- await (getPSPConnector (Transaction.psp_provider transaction)) ;;
           refundResponse <-
             await (connector_refundPayment connector
                      (path_segment (Transaction.psp_transaction_id transaction))
                      refundRequest) ;;
           let refundAmount :=
             or_number
               (match refundRequest with
                | Some r => RefundRequest.amount r
                | None => None
                end)
               (Transaction.amount transaction) in
           let transaction :=
             if Qle_bool (Transaction.amount transaction) refundAmount
             then Transaction.set_status transaction REFUNDED
             else Transaction.set_status transaction PARTIALLY_REFUNDED in
           Repository.save transaction ;;;
           ret refundResponse
     end)
    (fun error => throw ("Failed to refund payment: " ++ error)).

End Service.
End PaymentService.

(** ** HTTP responses *)

Inductive ResponseBody :=
  | PaymentOk (data : PaymentResponse.t)     (* { success: true, data } *)
  | RefundOk (data : RefundResponse.t)       (* { success: true, data } *)
  | Failure (error : string) (message : option string)
                                             (* { success: false, error, message? } *)
  | ErrorOnly (error : string)               (* { error } *)
  | Received.                                (* { received: true } *)

Module Response.
Record t := {
  status : nat;
  json : ResponseBody
}.
End Response.

(** ** controllers/PaymentController.ts *)

Module PaymentController.

(** The request after [authenticateApiKey]: [req.merchant],
    [req.params.id] and [req.body]. *)
Record Request (Body : Type) := {
  merchant : option Merchant.t;
  params_id : string;
  body : Body
}.
Arguments merchant {Body} _.
Arguments params_id {Body} _.
Arguments body {Body} _.

(** A controller never rejects: its [catch] turns the error into a
    response. *)
Definition respond (m : Async Response.t) (handler : JsError -> Response.t)
  : World.t -> Response.t * World.t :=
  fun w =>
    match m w with
    | (Returned r, w') => (r, w')
    | (Thrown e, w') => (handler e, w')
    end.

Section Controller.
Variable env : Env.t.

Definition getPayment (req : Request unit)
  : World.t -> Response.t * World.t :=
  respond
    (payment <- PaymentService.getPayment env (params_id req) ;;
     ret {| Response.status := 200; Response.json := PaymentOk payment |})
    (fun error =>
       if includes error "not found"
       then {| Response.status := 404;
               Response.json := Failure "Payment not found" None |}
       else {| Response.status := 500;
               Response.json := Failure "Failed to get payment" (Some error) |}).

Definition refundPayment (req : Request (option RefundRequest.t))
  : World.t -> Response.t * World.t :=
  respond
    (refund <- PaymentService.refundPayment env (params_id req) (body req) ;;
     ret {| Response.status := 200; Response.json := RefundOk refund |})
    (fun error =>
       if includes error "not found"
       then {| Response.status := 404;
               Response.json := Failure "Payment not found" None |}
       else if includes error "Only paid transactions"
       then {| Response.status := 400;
               Response.json :=
                 Failure "Invalid payment status for refund" (Some error) |}
       else {| Response.status := 500;
               Response.json := Failure "Failed to refund payment" (Some error) |}).

End Controller.
End PaymentController.

(** ** controllers/WebhookController.ts *)

Module WebhookController.

Definition with_outbox (w : World.t) (sent : list Delivery.t) : World.t :=
  {| World.transactions := World.transactions w;
     World.merchants := World.merchants w;
     World.outbox := sent |}.

Section Controller.
Variable env : Env.t.

Definition generateWebhookSignature (payload : MerchantWebhook.t)
    (secret : string) : string :=
  Env.hmac_sha256_hex env secret (Env.stringify_envelope env payload).

(** [axios.post(url, payload, { headers, timeout })] *)
Definition axios_post (request : Delivery.t) : Async unit :=
  fun w =>
    let w' := with_outbox w (World.outbox w ++ [request]) in
    match Env.merchant_endpoint env request with
    | None => (Returned tt, w')
    | Some error => (Thrown error, w')
    end.

Definition forwardWebhookToMerchant (transaction : Transaction.t)
    (eventType : string) (pspData : PaymentData.t) : Async unit :=
  try_catch
    (merchant <- Repository.findOne_merchant (Transaction.merchant_id transaction) ;;
     match merchant with
     | None => ret tt
     | Some merchant =>
         match Merchant.webhook_url merchant with
         | None => ret tt
         | Some webhook_url =>
             if negb (truthy_string webhook_url) then ret tt
             else
               let webhookPayload :=
                 {| MerchantWebhook.event := eventType;
                    MerchantWebhook.transaction_id := Transaction.id transaction;
                    MerchantWebhook.status := Transaction.status transaction;
                    MerchantWebhook.amount := Transaction.amount transaction;
                    MerchantWebhook.currency := Transaction.currency transaction;
                    MerchantWebhook.created_at := Transaction.created_at transaction;
                    MerchantWebhook.psp_provider := Transaction.psp_provider transaction;
                    MerchantWebhook.metadata := Transaction.metadata transaction;
                    MerchantWebhook.original_data := pspData |} in
               axios_post
                 {| Delivery.url := webhook_url;
                    Delivery.payload := webhookPayload;
                    Delivery.signature :=
                      generateWebhookSignature webhookPayload
                        (or_string (Merchant.webhook_secret merchant) "") |}
         end
     end)
    (fun _ => ret tt).

Definition handlePaymentPaid (paymentData : PaymentData.t) : Async unit :=
  found <- Repository.findOne_psp_transaction_id (PaymentData.id paymentData) ;;
  match found with
  | Some transaction =>
      let transaction := Transaction.set_status transaction PAID in
      Repository.save transaction ;;;
      forwardWebhookToMerchant transaction "payment.paid" paymentData
  | None => ret tt
  end.

Definition handlePaymentFailed (paymentData : PaymentData.t) : Async unit :=
  found <- Repository.findOne_psp_transaction_id (PaymentData.id paymentData) ;;
  match found with
  | Some transaction =>
      let transaction := Transaction.set_status transaction FAILED in
      let transaction :=
        Transaction.set_error_message transaction
          (or_string (PaymentData.message paymentData) "Payment failed") in
      Repository.save transaction ;;;
      forwardWebhookToMerchant transaction "payment.failed" paymentData
  | None => ret tt
  end.

(** [refundAmount >= transaction.amount] with
    [refundAmount = paymentData.refunded_amount / 100]; an absent
    [refunded_amount] gives [NaN], which compares false. *)
Definition refund_covers (paymentData : PaymentData.t)
    (transaction : Transaction.t) : bool :=
  match PaymentData.refunded_amount paymentData with
  | Some refunded_amount =>
      let refundAmount := MoyasarConnector.fromHalalas refunded_amount in
      Qle_bool (Transaction.amount transaction) refundAmount
  | None => false
  end.

Definition handlePaymentRefunded (paymentData : PaymentData.t) : Async unit :=
  found <- Repository.findOne_psp_transaction_id (PaymentData.id paymentData) ;;
  match found with
  | Some transaction =>
      let transaction :=
        if refund_covers paymentData transaction
        then Transaction.set_status transaction REFUNDED
        else Transaction.set_status transaction PARTIALLY_REFUNDED in
      Repository.save transaction ;;;
      forwardWebhookToMerchant transaction "payment.refunded" paymentData
  | None => ret tt
  end.

(** The signature check:
    [if (webhookSecret && signature) { if (!isValid) { 401; return } }].
    Verification runs only when both the secret and the header are
    truthy. *)
Definition rejects_signature (req : WebhookRequest.t) : bool :=
  let signature := WebhookRequest.x_moyasar_signature req in
  let payload := Env.stringify_event env (WebhookRequest.body req) in
  let webhookSecret := Env.MOYASAR_WEBHOOK_SECRET env in
  match webhookSecret, signature with
  | Some webhookSecret, Some signature =>
      if truthy_string webhookSecret && truthy_string signature
      then
        let isValid :=
          MoyasarConnector.verifyWebhookSignature env
            payload signature webhookSecret in
        negb isValid
      else false
  | _, _ => false
  end.

Definition handleMoyasarWebhook (req : WebhookRequest.t)
  : World.t -> Response.t * World.t :=
  PaymentController.respond
    (if rejects_signature req
     then ret {| Response.status := 401;
                 Response.json := ErrorOnly "Invalid signature" |}
     else
       let event := WebhookRequest.body req in
       (if String.eqb (WebhookEvent.type event) "payment_paid"
        then handlePaymentPaid (WebhookEvent.data event)
        else if String.eqb (WebhookEvent.type event) "payment_failed"
        then handlePaymentFailed (WebhookEvent.data event)
        else if String.eqb (WebhookEvent.type event) "payment_refunded"
        then handlePaymentRefunded (WebhookEvent.data event)
        else ret tt) ;;;
       ret {| Response.status := 200; Response.json := Received |})
    (fun _ => {| Response.status := 500;
                 Response.json := ErrorOnly "Webhook processing failed" |}).

End Controller.
End WebhookController.

(** ** The conversions on IEEE 754 binary64

    The arithmetic of [toHalalas] and [fromHalalas] on the doubles a JS
    [number] really is, to compare with the exact model on concrete
    amounts. *)

Module Binary64.

(** The rational a finite double denotes. *)
Definition value (x : float) : option Q :=
  match Prim2SF x with
  | S754_zero _ => Some 0%Q
  | S754_finite s m e =>
      let n := if s then Z.neg m else Z.pos m in
      Some (if 0 <=? e then inject_Z (n * 2 ^ e)
            else Qmake n (Z.to_pos (2 ^ (- e))))
  | S754_infinity _ | S754_nan => None
  end.

(** The double of a non-negative integer below [2^53]. *)
Definition of_Z (k : Z) : float := PrimFloat.of_uint63 (Uint63.of_Z k).

(** [Math.round(amount * 100)] *)
Definition toHalalas (amount : float) : option Z :=
  option_map Math_round (value (PrimFloat.mul amount (of_Z 100))).

(** [amount / 100] *)
Definition fromHalalas (amount : float) : float :=
  PrimFloat.div amount (of_Z 100).

(** The double nearest to [k / 100] goes to [k] halalas, and from there
    back to the same halalas. *)
Definition stable (k : Z) : bool :=
  match toHalalas (fromHalalas (of_Z k)) with
  | Some m =>
      (m =? k)
      && match toHalalas (fromHalalas (of_Z m)) with
         | Some m' => m' =? m
         | None => false
         end
  | None => false
  end.

(** [stable] on [n] amounts, [step] halalas apart, from [k] on. *)
Fixpoint stable_from (n : nat) (step k : Z) : bool :=
  match n with
  | O => true
  | S n' => stable k && stable_from n' step (k + step)
  end.

End Binary64.

(** The status of the ledger row with primary key [i]. *)
Definition status_of (i : string) (w : World.t) : option PaymentStatus :=
  option_map Transaction.status
    (find (Repository.has_id i) (World.transactions w)).

(** The error a refund of a transaction that is not [PAID] ends in. *)
Definition only_paid : JsError :=
  "Failed to refund payment: Only paid transactions can be refunded".

(** The status a refund of [refundRequest] writes on [tx]. *)
Definition refund_outcome (refundRequest : option RefundRequest.t)
    (tx : Transaction.t) : PaymentStatus :=
  let refundAmount :=
    or_number
      (match refundRequest with
       | Some r => RefundRequest.amount r
       | None => None
       end)
      (Transaction.amount tx) in
  if Qle_bool (Transaction.amount tx) refundAmount
  then REFUNDED else PARTIALLY_REFUNDED.

(** ** Concrete data: one provider, two merchants, one ledger row *)

Module Scenario.

Definition hmac (secret data : string) : string :=
  "hmac(" ++ secret ++ "," ++ data ++ ")".

Definition stringify_event (e : WebhookEvent.t) : string :=
  "{type:" ++ WebhookEvent.type e ++ ",id:"
  ++ PaymentData.id (WebhookEvent.data e) ++ "}".

Definition stringify_envelope (p : MerchantWebhook.t) : string :=
  "{event:" ++ MerchantWebhook.event p ++ ",transaction_id:"
  ++ MerchantWebhook.transaction_id p ++ "}".

(** The provider's view of payment [pay_1]. *)
Definition payment (status : string) (halalas : Z) : MoyasarPayment.t :=
  {| MoyasarPayment.id := "pay_1";
     MoyasarPayment.status := status;
     MoyasarPayment.amount := inject_Z halalas;
     MoyasarPayment.currency := "SAR";
     MoyasarPayment.fee := None;
     MoyasarPayment.source := None;
     MoyasarPayment.created_at := "2024-01-01T00:00:00Z";
     MoyasarPayment.updated_at := None;
     MoyasarPayment.description := None;
     MoyasarPayment.metadata := None;
     MoyasarPayment.callback_url := None |}.

Definition declined : AxiosError.t :=
  {| AxiosError.response :=
       Some {| MoyasarErrorData.message := Some "card declined";
               MoyasarErrorData.error := None;
               MoyasarErrorData.type := Some "invalid_request_error" |};
     AxiosError.message := "Request failed with status code 400" |}.

(** An environment whose provider accepts every call and reports [pay_1]
    as paid. *)
Definition env (secret : option string) : Env.t :=
  {| Env.MOYASAR_WEBHOOK_SECRET := secret;
     Env.hmac_sha256_hex := hmac;
     Env.stringify_event := stringify_event;
     Env.stringify_envelope := stringify_envelope;
     Env.post_payments := fun p => inr (payment "paid" (MoyasarPayload.amount p));
     Env.get_payments := fun _ => inr (payment "paid" 10050);
     Env.post_refund := fun _ p =>
       inr {| MoyasarRefund.id := "ref_1";
              MoyasarRefund.amount :=
                match RefundPayload.amount p with
                | Some a => inject_Z a
                | None => inject_Z 10050
                end;
              MoyasarRefund.status := "refunded";
              MoyasarRefund.created_at := "2024-01-02T00:00:00Z" |};
     Env.merchant_endpoint := fun _ => None;
     Env.uuid := fun rows => "txn_" ++ String (ascii_of_nat (50 + length rows)) "";
     Env.now := "2024-01-01T00:00:01Z" |}.

(** The same environment with a provider that declines every payment. *)
Definition env_declining : Env.t :=
  {| Env.MOYASAR_WEBHOOK_SECRET := None;
     Env.hmac_sha256_hex := hmac;
     Env.stringify_event := stringify_event;
     Env.stringify_envelope := stringify_envelope;
     Env.post_payments := fun _ => inl declined;
     Env.get_payments := fun _ => inl declined;
     Env.post_refund := fun _ _ => inl declined;
     Env.merchant_endpoint := fun _ => None;
     Env.uuid := fun _ => "txn_2";
     Env.now := "2024-01-01T00:00:01Z" |}.

Definition merchant (i : string) : Merchant.t :=
  {| Merchant.id := i;
     Merchant.name := i;
     Merchant.email := i ++ "@example.com";
     Merchant.api_key := "pk_test_" ++ i;
     Merchant.webhook_url := None;
     Merchant.webhook_secret := None;
     Merchant.active := true |}.

(** A payment of 100.50 SAR owned by merchant [A]. *)
Definition row (status : PaymentStatus) : Transaction.t :=
  {| Transaction.id := "txn_1";
     Transaction.merchant_id := "A";
     Transaction.psp_provider := MOYASAR;
     Transaction.psp_transaction_id := Some "pay_1";
     Transaction.amount := 100.50%Q;
     Transaction.currency := SAR;
     Transaction.status := status;
     Transaction.payment_method := CREDITCARD;
     Transaction.card_token := None;
     Transaction.card_brand := None;
     Transaction.card_last_four := None;
     Transaction.description := None;
     Transaction.fee := 0%Q;
     Transaction.metadata := None;
     Transaction.callback_url := None;
     Transaction.error_message := None;
     Transaction.psp_reference_number := None;
     Transaction.created_at := "2024-01-01T00:00:01Z" |}.

Definition world (status : PaymentStatus) : World.t :=
  {| World.transactions := [row status];
     World.merchants := [merchant "A"; merchant "B"];
     World.outbox := [] |}.

Definition empty_world : World.t :=
  {| World.transactions := [];
     World.merchants := [merchant "A"; merchant "B"];
     World.outbox := [] |}.

Definition request (amount : number) : PaymentRequest.t :=
  {| PaymentRequest.amount := amount;
     PaymentRequest.currency := SAR;
     PaymentRequest.description := None;
     PaymentRequest.callback_url := None;
     PaymentRequest.source := None;
     PaymentRequest.metadata := None |}.

Definition refund (amount : number) : option RefundRequest.t :=
  Some {| RefundRequest.amount := Some amount;
          RefundRequest.reason := None |}.

Definition event (type id : string) (refunded : option number)
  : WebhookEvent.t :=
  {| WebhookEvent.type := type;
     WebhookEvent.data :=
       {| PaymentData.id := id;
          PaymentData.message := None;
          PaymentData.refunded_amount := refunded |};
     WebhookEvent.created_at := "2024-01-03T00:00:00Z" |}.

Definition webhook (signature : option string) (e : WebhookEvent.t)
  : WebhookRequest.t :=
  {| WebhookRequest.x_moyasar_signature := signature;
     WebhookRequest.body := e |}.

(** The refund request of merchant [m] for [txn_1]. *)
Definition refund_call (m : string) (amount : number)
  : PaymentController.Request (option RefundRequest.t) :=
  {| PaymentController.merchant := Some (merchant m);
     PaymentController.params_id := "txn_1";
     PaymentController.body := refund amount |}.

Definition get_call (m : string) : PaymentController.Request unit :=
  {| PaymentController.merchant := Some (merchant m);
     PaymentController.params_id := "txn_1";
     PaymentController.body := tt |}.

(** The world after a first refund of 50.25 on the paid [txn_1], and the
    second refund of 50.25 run in it. *)
Definition after_first_refund : World.t :=
  snd (PaymentService.refundPayment (env None) "txn_1" (refund 50.25%Q)
         (world PAID)).

Definition second_refund : Completion RefundResponse.t * World.t :=
  PaymentService.refundPayment (env None) "txn_1" (refund 50.25%Q)
    after_first_refund.

End Scenario.

(** * The rest of the request path

    The enum's string values, the authentication middleware, the
    remaining service and controller methods, and the routes that chain
    them. *)

(** The string value of each [PaymentStatus] member. *)
Definition PaymentStatus_value (s : PaymentStatus) : string :=
  match s with
  | PENDING => "pending"
  | PROCESSING => "processing"
  | AUTHORIZED => "authorized"
  | PAID => "paid"
  | FAILED => "failed"
  | REFUNDED => "refunded"
  | PARTIALLY_REFUNDED => "partially_refunded"
  | VOIDED => "voided"
  end.

(** The columns no method assigns after the row is inserted. *)
Definition fixed_columns (tx : Transaction.t) :=
  (Transaction.id tx, Transaction.merchant_id tx, Transaction.psp_provider tx,
   Transaction.psp_transaction_id tx, Transaction.amount tx,
   Transaction.currency tx, Transaction.payment_method tx,
   Transaction.created_at tx).

(** The ledger after a call that wrote at most one entity it had loaded:
    nothing was written, or the entity [tx] came back with its fixed
    columns intact. *)
Definition updates_only (rows rows' : list Transaction.t) : Prop :=
  rows' = rows
  \/ exists tx tx',
       In tx rows
       /\ fixed_columns tx' = fixed_columns tx
       /\ rows' = Repository.replace_row tx' rows.

(** The primary key constraint of the [transactions] table. *)
Definition unique_ids (rows : list Transaction.t) : Prop :=
  NoDup (map Transaction.id rows).

(** [try { m } catch (error) { respond with handler error }] for a
    middleware or controller whose outcome is an [A]. *)
Definition settle {A} (m : Async A) (handler : JsError -> A)
  : World.t -> A * World.t :=
  fun w =>
    match m w with
    | (Returned a, w') => (a, w')
    | (Thrown e, w') => (handler e, w')
    end.

(** ** middleware/auth.ts *)

Module Auth.

(** What the middleware does with a request: call [next()] with
    [req.merchant] set, or answer [{ error, message }] itself. *)
Inductive Outcome :=
  | Next (merchant : Merchant.t)
  | Reject (status : nat) (error message : string).

(** [s.substring(n)] *)
Definition substring_from (n : nat) (s : string) : string :=
  String.substring n (String.length s - n) s.

(** [merchantRepository.findOne({ where: { api_key } })] *)
Definition findOne_api_key (apiKey : string) : Async (option Merchant.t) :=
  fun w =>
    (Returned
       (find (fun m => String.eqb (Merchant.api_key m) apiKey) (World.merchants w)),
     w).

Definition unauthorized : Outcome :=
  Reject 401 "Unauthorized"
    "Missing or invalid API key. Use: Authorization: Bearer YOUR_API_KEY".

Definition authenticateApiKey (authorization : option string)
  : World.t -> Outcome * World.t :=
  settle
    (match authorization with
     | None => ret unauthorized
     | Some authHeader =>
         if negb (truthy_string authHeader)
            || negb (String.prefix "Bearer " authHeader)
         then ret unauthorized
         else
           let apiKey := substring_from 7 authHeader in
           merchant <- findOne_api_key apiKey ;;
           match merchant with
           | None => ret (Reject 401 "Unauthorized" "Invalid API key")
           | Some merchant =>
               if negb (Merchant.active merchant)
               then ret (Reject 403 "Forbidden" "Merchant account is inactive")
               else ret (Next merchant)
           end
     end)
    (fun _ => Reject 500 "Internal Server Error" "Authentication failed").

End Auth.

(** ** PaymentService.getTransactions *)

Module Filters.
Record t := {
  status : option PaymentStatus;
  limit : option Z;                       (* absent or NaN: [None] *)
  offset : option Z
}.
End Filters.

(** [n || d] on an optional integer. *)
Definition or_integer (o : option Z) (d : Z) : Z :=
  match o with
  | Some n => if n =? 0 then d else n
  | None => d
  end.

Module Queries.

Section Query.
(** [ORDER BY transaction.created_at DESC] as the database runs it; the
    order among equal timestamps is the database's choice. *)
Variable order_by_created_at_desc : list Transaction.t -> list Transaction.t.

(** The [WHERE] clauses of the query builder. *)
Definition selected (merchantId : string) (filters : option Filters.t)
    (tx : Transaction.t) : bool :=
  String.eqb (Transaction.merchant_id tx) merchantId
  && match filters with
     | Some f =>
         match Filters.status f with
         | Some s => PaymentStatus_eqb (Transaction.status tx) s
         | None => true
         end
     | None => true
     end.

(** [getTransactions]: the database refuses a negative LIMIT or OFFSET. *)
Definition getTransactions (merchantId : string) (filters : option Filters.t)
  : Async (list Transaction.t) :=
  fun w =>
    let limit :=
      or_integer (match filters with Some f => Filters.limit f | None => None end)
        50 in
    let offset :=
      or_integer (match filters with Some f => Filters.offset f | None => None end)
        0 in
    if (limit <? 0) || (offset <? 0)
    then (Thrown "LIMIT and OFFSET must not be negative", w)
    else
      let rows :=
        order_by_created_at_desc
          (filter (selected merchantId filters) (World.transactions w)) in
      (Returned (firstn (Z.to_nat limit) (skipn (Z.to_nat offset) rows)), w).

End Query.
End Queries.

(** ** The remaining endpoints of controllers/PaymentController.ts *)

(** The bodies the middleware and these endpoints answer with, next to
    the [Response.t] of the endpoints above. *)
Inductive Reply :=
  | AuthError (status : nat) (error message : string)  (* { error, message } *)
  | ValidationErrors (errors : list string)            (* 400 { errors } *)
  | Listed (data : list Transaction.t) (count : nat)   (* 200 { success, data, count } *)
  | Answer (r : Response.t).

Definition Reply_status (r : Reply) : nat :=
  match r with
  | AuthError status _ _ => status
  | ValidationErrors _ => 400
  | Listed _ _ => 200
  | Answer r => Response.status r
  end.

Module Endpoints.

(** [POST /payments] after the validators: [validationResult(req)],
    [req.merchant] and [req.body]. *)
Module CreateRequest.
Record t := {
  errors : list string;
  merchant : option Merchant.t;
  body : PaymentRequest.t
}.
End CreateRequest.

(** [GET /payments]: [req.merchant] and [req.query]. *)
Module ListRequest.
Record t := {
  merchant : option Merchant.t;
  status : option string;
  limit : option string;
  offset : option string
}.
End ListRequest.

(** [req.merchant!.id]: reading [id] of [undefined] throws. *)
Definition merchant_id (merchant : option Merchant.t) : Async string :=
  match merchant with
  | Some m => ret (Merchant.id m)
  | None => throw "Cannot read properties of undefined (reading 'id')"
  end.

(** [status as any]: the query string reaches the enum column as it is; a
    member's value selects it, anything else the database refuses. *)
Definition status_filter (status : option string)
  : Async (option PaymentStatus) :=
  match status with
  | None => ret None
  | Some s =>
      if negb (truthy_string s) then ret None
      else
        match find (fun m => String.eqb (PaymentStatus_value m) s)
                [PENDING; PROCESSING; AUTHORIZED; PAID;
                 FAILED; REFUNDED; PARTIALLY_REFUNDED; VOIDED] with
        | Some m => ret (Some m)
        | None => throw "invalid input value for enum transactions_status_enum"
        end
  end.

Section Controller.
Variable env : Env.t.
(** [parseInt]: [None] for [NaN]. *)
Variable parseInt : string -> option Z.
Variable order_by_created_at_desc : list Transaction.t -> list Transaction.t.

Definition createPayment (req : CreateRequest.t)
  : World.t -> Reply * World.t :=
  settle
    (if negb (Nat.eqb (List.length (CreateRequest.errors req)) 0)
     then ret (ValidationErrors (CreateRequest.errors req))
     else
       merchantId <- merchant_id (CreateRequest.merchant req) ;;
       payment <-
         PaymentService.createPayment env merchantId (CreateRequest.body req) ;;
       ret (Answer {| Response.status := 201;
                      Response.json := PaymentOk payment |}))
    (fun error =>
       Answer {| Response.status := 500;
                 Response.json := Failure "Failed to create payment" (Some error) |}).

(** [q ? parseInt(q) : undefined] *)
Definition parse_query (q : option string) : option Z :=
  match q with
  | Some s => if truthy_string s then parseInt s else None
  | None => None
  end.

Definition listPayments (req : ListRequest.t)
  : World.t -> Reply * World.t :=
  settle
    (merchantId <- merchant_id (ListRequest.merchant req) ;;
     status <- status_filter (ListRequest.status req) ;;
     transactions <-
       Queries.getTransactions order_by_created_at_desc merchantId
         (Some {| Filters.status := status;
                  Filters.limit := parse_query (ListRequest.limit req);
                  Filters.offset := parse_query (ListRequest.offset req) |}) ;;
     ret (Listed transactions (List.length transactions)))
    (fun error =>
       Answer {| Response.status := 500;
                 Response.json := Failure "Failed to list payments" (Some error) |}).

End Controller.
End Endpoints.

(** ** routes/api.routes.ts: the middleware chain of each protected route *)

Module Routes.

Section Router.
Variable env : Env.t.
Variable parseInt : string -> option Z.
Variable order_by_created_at_desc : list Transaction.t -> list Transaction.t.

(** [router.METHOD(path, authenticateApiKey, ..., handler)] *)
Definition protected (authorization : option string)
    (handler : Merchant.t -> World.t -> Reply * World.t)
  : World.t -> Reply * World.t :=
  fun w =>
    match Auth.authenticateApiKey authorization w with
    | (Auth.Next merchant, w') => handler merchant w'
    | (Auth.Reject status error message, w') =>
        (AuthError status error message, w')
    end.

Definition answer (r : Response.t * World.t) : Reply * World.t :=
  (Answer (fst r), snd r).

Definition post_payments (authorization : option string)
    (errors : list string) (body : PaymentRequest.t) :=
  protected authorization
    (fun merchant =>
       Endpoints.createPayment env
         {| Endpoints.CreateRequest.errors := errors;
            Endpoints.CreateRequest.merchant := Some merchant;
            Endpoints.CreateRequest.body := body |}).

Definition get_payment (authorization : option string) (id : string) :=
  protected authorization
    (fun merchant w =>
       answer
         (PaymentController.getPayment env
            {| PaymentController.merchant := Some merchant;
               PaymentController.params_id := id;
               PaymentController.body := tt |} w)).

Definition get_payments (authorization : option string)
    (status limit offset : option string) :=
  protected authorization
    (fun merchant =>
       Endpoints.listPayments parseInt order_by_created_at_desc
         {| Endpoints.ListRequest.merchant := Some merchant;
            Endpoints.ListRequest.status := status;
            Endpoints.ListRequest.limit := limit;
            Endpoints.ListRequest.offset := offset |}).

Definition post_refund (authorization : option string) (id : string)
    (body : option RefundRequest.t) :=
  protected authorization
    (fun merchant w =>
       answer
         (PaymentController.refundPayment env
            {| PaymentController.merchant := Some merchant;
               PaymentController.params_id := id;
               PaymentController.body := body |} w)).

End Router.
End Routes.

(** ** Calls on the ledger *)

(** The four ways a request writes the ledger, and the world each leaves. *)
Inductive Call :=
  | Create (merchantId : string) (request : PaymentRequest.t)
  | Get (transactionId : string)
  | Refund (transactionId : string) (refundRequest : option RefundRequest.t)
  | Webhook (req : WebhookRequest.t).

Definition run (env : Env.t) (c : Call) (w : World.t) : World.t :=
  match c with
  | Create merchantId request =>
      snd (PaymentService.createPayment env merchantId request w)
  | Get transactionId => snd (PaymentService.getPayment env transactionId w)
  | Refund transactionId refundRequest =>
      snd (PaymentService.refundPayment env transactionId refundRequest w)
  | Webhook req => snd (WebhookController.handleMoyasarWebhook env req w)
  end.

Definition run_all (env : Env.t) (calls : list Call) (w : World.t) : World.t :=
  fold_left (fun w c => run env c w) calls w.

(** The entity a provider event writes over the row [tx] it loaded, if its
    type has a handler. *)
Definition written_by (event : WebhookEvent.t) (tx : Transaction.t)
  : option Transaction.t :=
  let data := WebhookEvent.data event in
  if String.eqb (WebhookEvent.type event) "payment_paid"
  then Some (Transaction.set_status tx PAID)
  else if String.eqb (WebhookEvent.type event) "payment_failed"
  then Some (Transaction.set_error_message
               (Transaction.set_status tx FAILED)
               (or_string (PaymentData.message data) "Payment failed"))
  else if String.eqb (WebhookEvent.type event) "payment_refunded"
  then Some (if WebhookController.refund_covers data tx
             then Transaction.set_status tx REFUNDED
             else Transaction.set_status tx PARTIALLY_REFUNDED)
  else None.

(** A key generator that never returns a key in use. *)
Definition generates_fresh_keys (env : Env.t) : Prop :=
  forall rows, ~ In (Env.uuid env rows) (map Transaction.id rows).

(** ** Concrete data for the properties below *)

Module Fixture.

(** Merchant [A] with a webhook endpoint, and an inactive merchant [C]. *)
Definition merchant_A : Merchant.t :=
  {| Merchant.id := "A";
     Merchant.name := "A";
     Merchant.email := "A@example.com";
     Merchant.api_key := "pk_test_A";
     Merchant.webhook_url := Some "https://a.example.com/hook";
     Merchant.webhook_secret := Some "a_secret";
     Merchant.active := true |}.

Definition merchant_C : Merchant.t :=
  {| Merchant.id := "C";
     Merchant.name := "C";
     Merchant.email := "C@example.com";
     Merchant.api_key := "pk_test_C";
     Merchant.webhook_url := None;
     Merchant.webhook_secret := None;
     Merchant.active := false |}.

(** A second payment, [txn_0] of merchant [B], routed to another
    provider. *)
Definition row_B : Transaction.t :=
  {| Transaction.id := "txn_0";
     Transaction.merchant_id := "B";
     Transaction.psp_provider := HYPERPAY;
     Transaction.psp_transaction_id := Some "pay_0";
     Transaction.amount := 20%Q;
     Transaction.currency := SAR;
     Transaction.status := PAID;
     Transaction.payment_method := MADA;
     Transaction.card_token := None;
     Transaction.card_brand := None;
     Transaction.card_last_four := None;
     Transaction.description := None;
     Transaction.fee := 0%Q;
     Transaction.metadata := None;
     Transaction.callback_url := None;
     Transaction.error_message := None;
     Transaction.psp_reference_number := None;
     Transaction.created_at := "2024-01-01T00:00:00Z" |}.

Definition world (status : PaymentStatus) : World.t :=
  {| World.transactions := [row_B; Scenario.row status];
     World.merchants := [merchant_A; Scenario.merchant "B"; merchant_C];
     World.outbox := [] |}.

(** A merchant endpoint that is down. *)
Definition env_merchant_down : Env.t :=
  {| Env.MOYASAR_WEBHOOK_SECRET := None;
     Env.hmac_sha256_hex := Scenario.hmac;
     Env.stringify_event := Scenario.stringify_event;
     Env.stringify_envelope := Scenario.stringify_envelope;
     Env.post_payments := fun p =>
       inr (Scenario.payment "paid" (MoyasarPayload.amount p));
     Env.get_payments := fun _ => inr (Scenario.payment "paid" 10050);
     Env.post_refund := fun _ _ => inl Scenario.declined;
     Env.merchant_endpoint := fun _ => Some "connect ECONNREFUSED";
     Env.uuid := fun _ => "txn_2";
     Env.now := "2024-01-01T00:00:01Z" |}.

Definition paid_event : WebhookRequest.t :=
  Scenario.webhook None (Scenario.event "payment_paid" "pay_1" None).

(** A provider that answers a create with a masked card number. *)
Definition card_payment (p : MoyasarPayload.t) : MoyasarPayment.t :=
  {| MoyasarPayment.id := "pay_2";
     MoyasarPayment.status := "paid";
     MoyasarPayment.amount := inject_Z (MoyasarPayload.amount p);
     MoyasarPayment.currency := "SAR";
     MoyasarPayment.fee := Some 250%Q;
     MoyasarPayment.source :=
       Some {| ResponseSource.type := "creditcard";
               ResponseSource.company := Some "visa";
               ResponseSource.name := Some "A Customer";
               ResponseSource.number := Some "4111-11XX-XXXX-1111";
               ResponseSource.gateway_id := None;
               ResponseSource.reference_number := None;
               ResponseSource.token := None |};
     MoyasarPayment.created_at := "2024-01-01T00:00:00Z";
     MoyasarPayment.updated_at := None;
     MoyasarPayment.description := None;
     MoyasarPayment.metadata := None;
     MoyasarPayment.callback_url := None |}.

Definition env_card : Env.t :=
  {| Env.MOYASAR_WEBHOOK_SECRET := Some "whsec";
     Env.hmac_sha256_hex := Scenario.hmac;
     Env.stringify_event := Scenario.stringify_event;
     Env.stringify_envelope := Scenario.stringify_envelope;
     Env.post_payments := fun p => inr (card_payment p);
     Env.get_payments := fun _ => inl Scenario.declined;
     Env.post_refund := fun _ _ => inl Scenario.declined;
     Env.merchant_endpoint := fun _ => None;
     Env.uuid := fun _ => "txn_2";
     Env.now := "2024-01-01T00:00:01Z" |}.

(** A key longer than every key in use. *)
Fixpoint longer_key (rows : list Transaction.t) : string :=
  match rows with
  | [] => "k"
  | r :: rest => "k" ++ Transaction.id r ++ longer_key rest
  end.

(** [Scenario.env None] with that key generator. *)
Definition env : Env.t :=
  {| Env.MOYASAR_WEBHOOK_SECRET := None;
     Env.hmac_sha256_hex := Scenario.hmac;
     Env.stringify_event := Scenario.stringify_event;
     Env.stringify_envelope := Scenario.stringify_envelope;
     Env.post_payments := Env.post_payments (Scenario.env None);
     Env.get_payments := Env.get_payments (Scenario.env None);
     Env.post_refund := Env.post_refund (Scenario.env None);
     Env.merchant_endpoint := fun _ => None;
     Env.uuid := longer_key;
     Env.now := "2024-01-01T00:00:01Z" |}.

End Fixture.

(** * Properties *)

(** ** Amounts *)





(** On binary64 the conversions agree with the exact model: checked on
    every amount from 0.00 to 100.00, and on 2000 amounts spread up to
    the ledger column's bound of 99999999.99. *)
Lemma binary64_round_trip :
  Binary64.stable_from (Z.to_nat 10001) 1 0 = true
  /\ Binary64.stable_from (Z.to_nat 2000) 4999999 9999 = true.
Proof. split; vm_compute; reflexivity. Qed.

(** ** The monad *)

Lemma bind_returned {A B} (m : Async A) (k : A -> Async B) w a w' :
  m w = (Returned a, w') -> bind m k w = k a w'.
Proof. intros E. unfold bind. rewrite E. reflexivity. Qed.

Lemma bind_thrown {A B} (m : Async A) (k : A -> Async B) w e w' :
  m w = (Thrown e, w') -> bind m k w = (Thrown e, w').
Proof. intros E. unfold bind. rewrite E. reflexivity. Qed.

Lemma try_catch_returned {A} (m : Async A) h w a w' :
  m w = (Returned a, w') -> try_catch m h w = (Returned a, w').
Proof. intros E. unfold try_catch. rewrite E. reflexivity. Qed.

Lemma try_catch_thrown {A} (m : Async A) h w e w' :
  m w = (Thrown e, w') -> try_catch m h w = h e w'.
Proof. intros E. unfold try_catch. rewrite E. reflexivity. Qed.

(** ** The ledger *)

Lemma has_id_refl (tx : Transaction.t) :
  Repository.has_id (Transaction.id tx) tx = true.
Proof. unfold Repository.has_id. apply String.eqb_refl. Qed.

Lemma find_has_id_in (tx : Transaction.t) rows :
  In tx rows -> exists r, find (Repository.has_id (Transaction.id tx)) rows = Some r.
Proof.
  intros Hin.
  destruct (find (Repository.has_id (Transaction.id tx)) rows) as [r|] eqn:E.
  - now exists r.
  - pose proof (find_none _ _ E tx Hin) as F.
    rewrite has_id_refl in F. discriminate.
Qed.

(** After an UPDATE, the primary key leads to the written entity. *)
Lemma find_replace_row (tx : Transaction.t) rows r :
  find (Repository.has_id (Transaction.id tx)) rows = Some r ->
  find (Repository.has_id (Transaction.id tx)) (Repository.replace_row tx rows)
  = Some tx.
Proof.
  induction rows as [|x rows IH]; simpl; intros E; [discriminate|].
  destruct (Repository.has_id (Transaction.id tx) x) eqn:Hx.
  - simpl. now rewrite has_id_refl.
  - simpl. rewrite Hx. auto.
Qed.

Lemma status_of_save (tx : Transaction.t) (w : World.t) r :
  find (Repository.has_id (Transaction.id tx)) (World.transactions w) = Some r ->
  status_of (Transaction.id tx) (snd (Repository.save tx w))
  = Some (Transaction.status tx).
Proof.
  intros E. unfold status_of, Repository.save. simpl.
  now rewrite (find_replace_row tx _ r E).
Qed.

Lemma find_has_id_eq i rows tx :
  find (Repository.has_id i) rows = Some tx -> Transaction.id tx = i.
Proof.
  intros E. apply find_some in E as [_ E].
  unfold Repository.has_id in E. now apply String.eqb_eq in E.
Qed.

(** Forwarding to the merchant writes the outbox only. *)
Lemma forward_transactions env tx ev d w :
  World.transactions (snd (WebhookController.forwardWebhookToMerchant env tx ev d w))
  = World.transactions w.
Proof.
  unfold WebhookController.forwardWebhookToMerchant, try_catch, bind,
    Repository.findOne_merchant, WebhookController.axios_post, ret.
  destruct (find _ (World.merchants w)) as [m|]; [|reflexivity].
  destruct (Merchant.webhook_url m) as [u|]; [|reflexivity].
  destruct (truthy_string u); [|reflexivity]. simpl.
  destruct (Env.merchant_endpoint env _); reflexivity.
Qed.

Lemma PaymentStatus_eqb_eq a b : PaymentStatus_eqb a b = true <-> a = b.
Proof. destruct a, b; simpl; split; intros H; try reflexivity; discriminate. Qed.

(** ** The status mapping *)

Lemma mapStatus_table key s :
  MoyasarConnector.own_property MoyasarConnector.statusMap key = Some s ->
  MoyasarConnector.mapStatus key = Canonical s.
Proof. intros E. unfold MoyasarConnector.mapStatus. now rewrite E. Qed.

(** Outside the table and outside [Object.prototype] the default applies. *)
Lemma mapStatus_default key :
  MoyasarConnector.in_table key = false ->
  MoyasarConnector.inherited key = false ->
  MoyasarConnector.mapStatus key = Canonical FAILED.
Proof.
  unfold MoyasarConnector.in_table, MoyasarConnector.mapStatus.
  destruct (MoyasarConnector.own_property _ key); [discriminate|].
  intros _ E. now rewrite E.
Qed.

(** Only the provider status [paid] maps to [PAID]. *)
Lemma mapStatus_PAID key :
  MoyasarConnector.mapStatus key = Canonical PAID -> key = "paid".
Proof.
  unfold MoyasarConnector.mapStatus, MoyasarConnector.statusMap,
    MoyasarConnector.own_property.
  repeat match goal with
    | |- context [String.eqb ?a key] =>
        destruct (String.eqb_spec a key) as [<-|_]
    end; try discriminate; try reflexivity.
  destruct (MoyasarConnector.inherited key); discriminate.
Qed.

(** C5 (the code departs from the claim). The provider status
    [constructor] is not a key of the lookup table, yet [mapStatus] does
    not answer [FAILED] for it: the property access on the object literal
    reaches [Object.prototype.constructor], a truthy value, so the
    [|| PaymentStatus.FAILED] default is not taken and the result is no
    member of [PaymentStatus] at all. *)
Theorem mapStatus_constructor_not_FAILED :
  MoyasarConnector.in_table "constructor" = false
  /\ MoyasarConnector.mapStatus "constructor" = Inherited "constructor"
  /\ MoyasarConnector.mapStatus "constructor" <> Canonical FAILED.
Proof. repeat split. discriminate. Qed.

(** ** Creating a payment *)

Lemma selectPSP_MOYASAR request w :
  PaymentService.selectPSP request w = (Returned MOYASAR, w).
Proof.
  unfold PaymentService.selectPSP.
  destruct (PaymentRequest.source request) as [s|]; [|reflexivity].
  destruct (PaymentSource.type s); reflexivity.
Qed.

(** C6. When the connector's [createPayment] fails, the service rethrows
    the failure (prefixed with [Failed to create payment: ]) and the world,
    hence the ledger, is exactly what it was before the call. *)
Theorem createPayment_provider_failure
    (env : Env.t) (merchantId : string) (request : PaymentRequest.t)
    (e : JsError) (w : World.t) :
  MoyasarConnector.createPayment env request = Thrown e ->
  PaymentService.createPayment env merchantId request w
  = (Thrown ("Failed to create payment: " ++ e), w).
Proof.
  intros E. unfold PaymentService.createPayment.
  erewrite try_catch_thrown with (e := e) (w' := w); [reflexivity|].
  rewrite (bind_returned _ _ w MOYASAR w (selectPSP_MOYASAR request w)).
  unfold bind, await, PaymentService.getPSPConnector. simpl.
  now rewrite E.
Qed.

Lemma createPayment_provider_failure_witness :
  MoyasarConnector.createPayment Scenario.env_declining (Scenario.request 100.50%Q)
  = Thrown "Moyasar Error: card declined"
  /\ PaymentService.createPayment Scenario.env_declining "A"
       (Scenario.request 100.50%Q) Scenario.empty_world
     = (Thrown "Failed to create payment: Moyasar Error: card declined",
        Scenario.empty_world).
Proof.
  split; [reflexivity|].
  apply (createPayment_provider_failure Scenario.env_declining "A"
           (Scenario.request 100.50%Q) "Moyasar Error: card declined"
           Scenario.empty_world).
  reflexivity.
Defined.




(** ** Refunds *)

Lemma refundPayment_guard env id req w tx :
  find (Repository.has_id id) (World.transactions w) = Some tx ->
  Transaction.status tx <> PAID ->
  PaymentService.refundPayment env id req w = (Thrown only_paid, w).
Proof.
  intros Hf Hs. unfold PaymentService.refundPayment.
  erewrite try_catch_thrown
    with (e := "Only paid transactions can be refunded") (w' := w);
    [reflexivity|].
  unfold bind, Repository.findOne_id. rewrite Hf.
  destruct (PaymentStatus_eqb (Transaction.status tx) PAID) eqn:E.
  - apply PaymentStatus_eqb_eq in E. contradiction.
  - reflexivity.
Qed.

(** A refund that returns found a [PAID] row and rewrote its status. *)
Lemma refundPayment_returned env id req w resp w' :
  PaymentService.refundPayment env id req w = (Returned resp, w') ->
  exists tx,
    find (Repository.has_id id) (World.transactions w) = Some tx
    /\ Transaction.status tx = PAID
    /\ status_of id w' = Some (refund_outcome req tx).
Proof.
  unfold PaymentService.refundPayment, try_catch, bind, Repository.findOne_id.
  destruct (find (Repository.has_id id) (World.transactions w)) as [tx|] eqn:Hf;
    [|unfold throw; discriminate].
  destruct (PaymentStatus_eqb (Transaction.status tx) PAID) eqn:Hs;
    [|unfold throw; discriminate].
  simpl. unfold await.
  destruct (PaymentService.getPSPConnector env (Transaction.psp_provider tx))
    as [c|e]; [|unfold throw; discriminate].
  destruct (PaymentService.connector_refundPayment c _ req) as [r|e];
    [|unfold throw; discriminate].
  unfold ret. intros E. injection E as _ <-.
  exists tx. split; [reflexivity|]. split; [now apply PaymentStatus_eqb_eq|].
  pose proof (find_has_id_eq _ _ _ Hf) as Hid. subst id.
  unfold refund_outcome.
  destruct (Qle_bool _ _).
  - exact (status_of_save (Transaction.set_status tx REFUNDED) w tx Hf).
  - exact (status_of_save (Transaction.set_status tx PARTIALLY_REFUNDED) w tx Hf).
Qed.

(** C4. A refund of an existing transaction whose status is not [PAID]
    (pending, processing, authorized, failed, refunded, partially refunded
    or voided) throws [Only paid transactions can be refunded], which the
    controller answers with 400, and leaves the world unchanged. *)
Theorem refund_rejected_unless_PAID
    (env : Env.t) (req : PaymentController.Request (option RefundRequest.t))
    (w : World.t) (tx : Transaction.t) :
  find (Repository.has_id (PaymentController.params_id req))
    (World.transactions w) = Some tx ->
  Transaction.status tx <> PAID ->
  PaymentService.refundPayment env (PaymentController.params_id req)
    (PaymentController.body req) w
  = (Thrown only_paid, w)
  /\ PaymentController.refundPayment env req w
     = ({| Response.status := 400;
           Response.json :=
             Failure "Invalid payment status for refund" (Some only_paid) |},
        w).
Proof.
  intros Hf Hs.
  pose proof (refundPayment_guard env _ (PaymentController.body req) w tx Hf Hs)
    as E.
  split; [exact E|].
  unfold PaymentController.refundPayment, PaymentController.respond, bind.
  rewrite E. reflexivity.
Qed.

Lemma refund_rejected_unless_PAID_witness :
  Transaction.status (Scenario.row PARTIALLY_REFUNDED) <> PAID
  /\ PaymentService.refundPayment (Scenario.env None) "txn_1"
       (Scenario.refund 50.25%Q) (Scenario.world PARTIALLY_REFUNDED)
     = (Thrown only_paid, Scenario.world PARTIALLY_REFUNDED)
  /\ Response.status
       (fst (PaymentController.refundPayment (Scenario.env None)
               (Scenario.refund_call "A" 50.25%Q)
               (Scenario.world PARTIALLY_REFUNDED))) = 400%nat.
Proof.
  assert (Hs : Transaction.status (Scenario.row PARTIALLY_REFUNDED) <> PAID)
    by discriminate.
  split; [exact Hs|].
  destruct (refund_rejected_unless_PAID (Scenario.env None)
              (Scenario.refund_call "A" 50.25%Q)
              (Scenario.world PARTIALLY_REFUNDED)
              (Scenario.row PARTIALLY_REFUNDED) eq_refl Hs) as [H1 H2].
  split; [exact H1|]. rewrite H2. reflexivity.
Defined.

Lemma refund_outcome_partial r reason tx :
  (0 < r)%Q -> (r < Transaction.amount tx)%Q ->
  refund_outcome
    (Some {| RefundRequest.amount := Some r; RefundRequest.reason := reason |})
    tx = PARTIALLY_REFUNDED.
Proof.
  intros H0 H1. unfold refund_outcome, or_number, truthy_number. simpl.
  destruct (Qeq_bool r 0) eqn:E.
  - apply Qeq_bool_iff in E. rewrite E in H0. now apply Qlt_irrefl in H0.
  - simpl. destruct (Qle_bool (Transaction.amount tx) r) eqn:L; [|reflexivity].
    apply Qle_bool_iff in L. now apply Qlt_not_le in H1.
Qed.

Lemma refund_outcome_full r reason tx :
  (Transaction.amount tx <= r)%Q ->
  refund_outcome
    (Some {| RefundRequest.amount := Some r; RefundRequest.reason := reason |})
    tx = REFUNDED.
Proof.
  intros H. unfold refund_outcome, or_number. simpl.
  destruct (truthy_number r).
  - apply Qle_bool_iff in H. now rewrite H.
  - assert (L : Qle_bool (Transaction.amount tx) (Transaction.amount tx) = true)
      by (apply Qle_bool_iff, Qle_refl).
    now rewrite L.
Qed.

(** C3 (amended). From a transaction of 100.50 with status [PAID], a
    refund of 50.25 that the provider accepts sets [PARTIALLY_REFUNDED];
    every later refund attempt is refused with
    [Only paid transactions can be refunded] and changes nothing, so the
    status stays [PARTIALLY_REFUNDED]. *)
Theorem refund_sequence
    (env : Env.t) (id : string) (w w1 : World.t) (tx : Transaction.t)
    (resp1 : RefundResponse.t) :
  find (Repository.has_id id) (World.transactions w) = Some tx ->
  (Transaction.amount tx == 100.50)%Q ->
  PaymentService.refundPayment env id (Scenario.refund 50.25%Q) w
  = (Returned resp1, w1) ->
  Transaction.status tx = PAID
  /\ status_of id w1 = Some PARTIALLY_REFUNDED
  /\ forall req, PaymentService.refundPayment env id req w1
                 = (Thrown only_paid, w1).
Proof.
  intros Hf Ha H1.
  destruct (refundPayment_returned _ _ _ _ _ _ H1) as (tx' & Hf' & Hs & Hw1).
  rewrite Hf in Hf'. injection Hf' as <-.
  assert (Hp : status_of id w1 = Some PARTIALLY_REFUNDED).
  { rewrite Hw1. f_equal. apply refund_outcome_partial; [reflexivity|].
    rewrite Ha. reflexivity. }
  repeat split; [exact Hs|exact Hp|].
  intros req. unfold status_of in Hp.
  destruct (find (Repository.has_id id) (World.transactions w1)) as [t1|] eqn:F1;
    [|discriminate].
  apply (refundPayment_guard env id req w1 t1 F1).
  simpl in Hp. injection Hp as ->. discriminate.
Qed.

Lemma refund_sequence_witness :
  exists resp1 w1,
    PaymentService.refundPayment (Scenario.env None) "txn_1"
      (Scenario.refund 50.25%Q) (Scenario.world PAID) = (Returned resp1, w1)
    /\ status_of "txn_1" w1 = Some PARTIALLY_REFUNDED
    /\ PaymentService.refundPayment (Scenario.env None) "txn_1"
         (Scenario.refund 50.25%Q) w1 = (Thrown only_paid, w1).
Proof.
  do 2 eexists.
  assert (H1 : PaymentService.refundPayment (Scenario.env None) "txn_1"
                 (Scenario.refund 50.25%Q) (Scenario.world PAID)
               = (Returned _, Scenario.world PARTIALLY_REFUNDED))
    by reflexivity.
  split; [exact H1|].
  destruct (refund_sequence (Scenario.env None) "txn_1" (Scenario.world PAID)
              _ (Scenario.row PAID) _ eq_refl (Qeq_refl _) H1)
    as (_ & H2 & H3).
  split; [exact H2|apply H3].
Defined.

(** C3 (the claim as written fails). After the first refund of 50.25 the
    second refund of 50.25 does not succeed: it is refused and the status
    is still [PARTIALLY_REFUNDED], not [REFUNDED]. *)
Lemma second_refund_is_refused :
  status_of "txn_1" Scenario.after_first_refund = Some PARTIALLY_REFUNDED
  /\ fst Scenario.second_refund = Thrown only_paid
  /\ status_of "txn_1" (snd Scenario.second_refund) = Some PARTIALLY_REFUNDED
  /\ ~ (exists resp, fst Scenario.second_refund = Returned resp)
  /\ status_of "txn_1" (snd Scenario.second_refund) <> Some REFUNDED.
Proof.
  vm_compute. repeat split; try discriminate.
  intros [resp H]. discriminate.
Qed.

(** ** Webhook handlers *)

Lemma find_psp_has_id i rows tx :
  find (Repository.has_psp_transaction_id i) rows = Some tx ->
  exists r, find (Repository.has_id (Transaction.id tx)) rows = Some r.
Proof. intros E. apply find_some in E as [Hin _]. now apply find_has_id_in. Qed.

(** Writing an entity and forwarding the event leaves the entity's status
    in its row. *)
Lemma save_forward_status env (t : Transaction.t) ev d w r :
  find (Repository.has_id (Transaction.id t)) (World.transactions w) = Some r ->
  status_of (Transaction.id t)
    (snd ((Repository.save t ;;;
           WebhookController.forwardWebhookToMerchant env t ev d) w))
  = Some (Transaction.status t).
Proof.
  intros E. unfold bind, Repository.save, status_of.
  rewrite forward_transactions. simpl.
  now rewrite (find_replace_row t _ r E).
Qed.

(** The first step of each handler: the lookup by the provider's id. *)
Ltac lookup_by_psp_id E :=
  match goal with
  | |- context [bind (Repository.findOne_psp_transaction_id ?i) ?k ?w] =>
      rewrite (bind_returned (Repository.findOne_psp_transaction_id i) k w _ w)
        by (unfold Repository.findOne_psp_transaction_id; now rewrite E);
      cbv beta iota
  end.

Lemma handlePaymentPaid_status env data w tx :
  find (Repository.has_psp_transaction_id (PaymentData.id data))
    (World.transactions w) = Some tx ->
  status_of (Transaction.id tx) (snd (WebhookController.handlePaymentPaid env data w))
  = Some PAID.
Proof.
  intros E. destruct (find_psp_has_id _ _ _ E) as [r Hr].
  unfold WebhookController.handlePaymentPaid.
  lookup_by_psp_id E.
  exact (save_forward_status env (Transaction.set_status tx PAID) _ _ w r Hr).
Qed.

Lemma handlePaymentFailed_status env data w tx :
  find (Repository.has_psp_transaction_id (PaymentData.id data))
    (World.transactions w) = Some tx ->
  status_of (Transaction.id tx) (snd (WebhookController.handlePaymentFailed env data w))
  = Some FAILED.
Proof.
  intros E. destruct (find_psp_has_id _ _ _ E) as [r Hr].
  unfold WebhookController.handlePaymentFailed.
  lookup_by_psp_id E.
  exact (save_forward_status env
           (Transaction.set_error_message (Transaction.set_status tx FAILED) _)
           _ _ w r Hr).
Qed.

Lemma handlePaymentRefunded_status env data w tx :
  find (Repository.has_psp_transaction_id (PaymentData.id data))
    (World.transactions w) = Some tx ->
  status_of (Transaction.id tx)
    (snd (WebhookController.handlePaymentRefunded env data w))
  = Some (if WebhookController.refund_covers data tx
          then REFUNDED else PARTIALLY_REFUNDED).
Proof.
  intros E. destruct (find_psp_has_id _ _ _ E) as [r Hr].
  unfold WebhookController.handlePaymentRefunded.
  lookup_by_psp_id E.
  destruct (WebhookController.refund_covers data tx).
  - exact (save_forward_status env (Transaction.set_status tx REFUNDED) _ _ w r Hr).
  - exact (save_forward_status env
             (Transaction.set_status tx PARTIALLY_REFUNDED) _ _ w r Hr).
Qed.

(** C7. A refund that succeeds writes [REFUNDED] when the requested amount
    is at least the transaction's amount and [PARTIALLY_REFUNDED] when it
    lies strictly between 0 and that amount; the [payment_refunded]
    handler classifies the same way on the event's [refunded_amount]
    divided by 100. *)
Theorem refund_classification :
  (forall env id r reason w tx resp w',
     find (Repository.has_id id) (World.transactions w) = Some tx ->
     PaymentService.refundPayment env id
       (Some {| RefundRequest.amount := Some r;
                RefundRequest.reason := reason |}) w
     = (Returned resp, w') ->
     Transaction.status tx = PAID
     /\ ((Transaction.amount tx <= r)%Q -> status_of id w' = Some REFUNDED)
     /\ ((0 < r)%Q -> (r < Transaction.amount tx)%Q ->
         status_of id w' = Some PARTIALLY_REFUNDED))
  /\ (forall env data m w tx,
        find (Repository.has_psp_transaction_id (PaymentData.id data))
          (World.transactions w) = Some tx ->
        PaymentData.refunded_amount data = Some m ->
        let w' := snd (WebhookController.handlePaymentRefunded env data w) in
        ((Transaction.amount tx <= m / 100)%Q ->
         status_of (Transaction.id tx) w' = Some REFUNDED)
        /\ ((m / 100 < Transaction.amount tx)%Q ->
            status_of (Transaction.id tx) w' = Some PARTIALLY_REFUNDED)).
Proof.
  split.
  - intros env id r reason w tx resp w' Hf H.
    destruct (refundPayment_returned _ _ _ _ _ _ H) as (tx' & Hf' & Hs & Hw).
    rewrite Hf in Hf'. injection Hf' as <-.
    split; [exact Hs|]. split.
    + intros L. rewrite Hw. f_equal. now apply refund_outcome_full.
    + intros H0 H1. rewrite Hw. f_equal. now apply refund_outcome_partial.
  - intros env data m w tx Hf Hm w'. subst w'.
    rewrite (handlePaymentRefunded_status env data w tx Hf).
    unfold WebhookController.refund_covers, MoyasarConnector.fromHalalas.
    rewrite Hm. split; intros L.
    + apply Qle_bool_iff in L. now rewrite L.
    + destruct (Qle_bool (Transaction.amount tx) (m / 100)) eqn:B; [|reflexivity].
      apply Qle_bool_iff in B. now apply Qlt_not_le in L.
Qed.

Lemma refund_classification_witness :
  status_of "txn_1"
    (snd (PaymentService.refundPayment (Scenario.env None) "txn_1"
            (Scenario.refund 100.50%Q) (Scenario.world PAID)))
  = Some REFUNDED
  /\ status_of "txn_1"
       (snd (PaymentService.refundPayment (Scenario.env None) "txn_1"
               (Scenario.refund 50.25%Q) (Scenario.world PAID)))
     = Some PARTIALLY_REFUNDED
  /\ status_of "txn_1"
       (snd (WebhookController.handlePaymentRefunded (Scenario.env None)
               (WebhookEvent.data
                  (Scenario.event "payment_refunded" "pay_1" (Some 10050%Q)))
               (Scenario.world PAID)))
     = Some REFUNDED
  /\ status_of "txn_1"
       (snd (WebhookController.handlePaymentRefunded (Scenario.env None)
               (WebhookEvent.data
                  (Scenario.event "payment_refunded" "pay_1" (Some 5025%Q)))
               (Scenario.world PAID)))
     = Some PARTIALLY_REFUNDED.
Proof.
  destruct refund_classification as [S W].
  split; [|split; [|split]].
  - refine (proj1 (proj2 (S (Scenario.env None) "txn_1" 100.50%Q None
                            (Scenario.world PAID) (Scenario.row PAID)
                            _ _ eq_refl eq_refl)) _).
    apply Qle_refl.
  - refine (proj2 (proj2 (S (Scenario.env None) "txn_1" 50.25%Q None
                            (Scenario.world PAID) (Scenario.row PAID)
                            _ _ eq_refl eq_refl)) _ _); reflexivity.
  - refine (proj1 (W (Scenario.env None)
                     (WebhookEvent.data
                        (Scenario.event "payment_refunded" "pay_1" (Some 10050%Q)))
                     10050%Q (Scenario.world PAID)
                     (Scenario.row PAID) eq_refl eq_refl) _).
    vm_compute. discriminate.
  - refine (proj2 (W (Scenario.env None)
                     (WebhookEvent.data
                        (Scenario.event "payment_refunded" "pay_1" (Some 5025%Q)))
                     5025%Q (Scenario.world PAID)
                     (Scenario.row PAID) eq_refl eq_refl) _).
    reflexivity.
Defined.

(** ** Polling the provider *)

Lemma getPayment_status env id w tx resp s :
  find (Repository.has_id id) (World.transactions w) = Some tx ->
  Transaction.psp_provider tx = MOYASAR ->
  MoyasarConnector.getPayment env
    (PaymentService.path_segment (Transaction.psp_transaction_id tx))
  = Returned resp ->
  PaymentResponse.status resp = Canonical s ->
  status_of id (snd (PaymentService.getPayment env id w)) = Some s.
Proof.
  intros Hf Hp Hr Hs.
  pose proof (find_has_id_eq _ _ _ Hf) as Hid. subst id.
  unfold PaymentService.getPayment, try_catch, bind, Repository.findOne_id.
  rewrite Hf, Hp. simpl. unfold await. rewrite Hr, Hs. simpl.
  destruct (PaymentStatus_eqb s (Transaction.status tx)) eqn:E; simpl.
  - apply PaymentStatus_eqb_eq in E. unfold status_of. rewrite Hf. simpl.
    now subst s.
  - exact (status_of_save (Transaction.set_status tx s) w tx Hf).
Qed.

(** C1 (amended). Of the writers of a transaction's status only the
    orchestration refund looks at the current status: on a [VOIDED],
    [FAILED] or [REFUNDED] transaction it throws and changes nothing. The
    webhook handlers and the polled update of [getPayment] write the status
    whatever the current one is: [PAID], [FAILED], the refund
    classification, and the provider's mapped status. *)
Theorem terminal_states_guarded_by_refund_only :
  (forall env id req w tx,
     find (Repository.has_id id) (World.transactions w) = Some tx ->
     In (Transaction.status tx) [VOIDED; FAILED; REFUNDED] ->
     PaymentService.refundPayment env id req w = (Thrown only_paid, w))
  /\ (forall env data w tx,
        find (Repository.has_psp_transaction_id (PaymentData.id data))
          (World.transactions w) = Some tx ->
        status_of (Transaction.id tx)
          (snd (WebhookController.handlePaymentPaid env data w)) = Some PAID
        /\ status_of (Transaction.id tx)
             (snd (WebhookController.handlePaymentFailed env data w)) = Some FAILED
        /\ status_of (Transaction.id tx)
             (snd (WebhookController.handlePaymentRefunded env data w))
           = Some (if WebhookController.refund_covers data tx
                   then REFUNDED else PARTIALLY_REFUNDED))
  /\ (forall env id w tx resp s,
        find (Repository.has_id id) (World.transactions w) = Some tx ->
        Transaction.psp_provider tx = MOYASAR ->
        MoyasarConnector.getPayment env
          (PaymentService.path_segment (Transaction.psp_transaction_id tx))
        = Returned resp ->
        PaymentResponse.status resp = Canonical s ->
        status_of id (snd (PaymentService.getPayment env id w)) = Some s).
Proof.
  split; [|split].
  - intros env id req w tx Hf Hin.
    apply (refundPayment_guard env id req w tx Hf).
    simpl in Hin. intros E. rewrite E in Hin.
    destruct Hin as [H|[H|[H|[]]]]; discriminate.
  - intros env data w tx Hf. split; [|split].
    + now apply handlePaymentPaid_status.
    + now apply handlePaymentFailed_status.
    + now apply handlePaymentRefunded_status.
  - intros env id w tx resp s. apply getPayment_status.
Qed.

Lemma terminal_states_guarded_by_refund_only_witness :
  PaymentService.refundPayment (Scenario.env None) "txn_1"
    (Scenario.refund 50.25%Q) (Scenario.world REFUNDED)
  = (Thrown only_paid, Scenario.world REFUNDED)
  /\ status_of "txn_1"
       (snd (WebhookController.handlePaymentPaid (Scenario.env None)
               (WebhookEvent.data (Scenario.event "payment_paid" "pay_1" None))
               (Scenario.world VOIDED)))
     = Some PAID
  /\ status_of "txn_1"
       (snd (PaymentService.getPayment (Scenario.env None) "txn_1"
               (Scenario.world FAILED)))
     = Some PAID.
Proof.
  destruct terminal_states_guarded_by_refund_only as (R & H & G).
  split; [|split].
  - apply (R (Scenario.env None) "txn_1" _ (Scenario.world REFUNDED)
             (Scenario.row REFUNDED) eq_refl).
    simpl. auto.
  - exact (proj1 (H (Scenario.env None)
                    (WebhookEvent.data (Scenario.event "payment_paid" "pay_1" None))
                    (Scenario.world VOIDED) (Scenario.row VOIDED) eq_refl)).
  - exact (G (Scenario.env None) "txn_1" (Scenario.world FAILED)
             (Scenario.row FAILED) _ PAID eq_refl eq_refl eq_refl eq_refl).
Defined.

(** C1 (the claim as written fails). A [payment_paid] webhook moves a
    [REFUNDED] transaction to [PAID], and so does a status poll when the
    provider reports [paid]. *)
Lemma terminal_status_is_overwritten :
  status_of "txn_1" (Scenario.world REFUNDED) = Some REFUNDED
  /\ status_of "txn_1"
       (snd (WebhookController.handleMoyasarWebhook (Scenario.env None)
               (Scenario.webhook None
                  (Scenario.event "payment_paid" "pay_1" None))
               (Scenario.world REFUNDED)))
     = Some PAID
  /\ status_of "txn_1"
       (snd (PaymentService.getPayment (Scenario.env None) "txn_1"
               (Scenario.world REFUNDED)))
     = Some PAID.
Proof. vm_compute. repeat split. Qed.

(** ** The inbound webhook endpoint *)

Lemma webhook_rejected env req w :
  WebhookController.rejects_signature env req = true ->
  WebhookController.handleMoyasarWebhook env req w
  = ({| Response.status := 401; Response.json := ErrorOnly "Invalid signature" |},
     w).
Proof.
  intros E. unfold WebhookController.handleMoyasarWebhook, PaymentController.respond.
  now rewrite E.
Qed.

(** A present, non-empty signature that does not verify under a
    configured secret is rejected, and nothing is processed. *)
Lemma webhook_invalid_signature env req w secret signature :
  Env.MOYASAR_WEBHOOK_SECRET env = Some secret ->
  truthy_string secret = true ->
  WebhookRequest.x_moyasar_signature req = Some signature ->
  truthy_string signature = true ->
  MoyasarConnector.verifyWebhookSignature env
    (Env.stringify_event env (WebhookRequest.body req)) signature secret = false ->
  WebhookController.handleMoyasarWebhook env req w
  = ({| Response.status := 401; Response.json := ErrorOnly "Invalid signature" |},
     w).
Proof.
  intros H1 H2 H3 H4 H5. apply webhook_rejected.
  unfold WebhookController.rejects_signature.
  now rewrite H1, H3, H2, H4, H5.
Qed.

(** The check never rejects a request that carries no signature. *)
Lemma webhook_missing_signature_passes env req :
  truthy_opt truthy_string (WebhookRequest.x_moyasar_signature req) = false ->
  WebhookController.rejects_signature env req = false.
Proof.
  unfold WebhookController.rejects_signature. intros E.
  destruct (Env.MOYASAR_WEBHOOK_SECRET env) as [s|]; [|reflexivity].
  destruct (WebhookRequest.x_moyasar_signature req) as [g|]; [|reflexivity].
  simpl in E. rewrite E. now rewrite andb_false_r.
Qed.

(** C2 (the code departs from the claim). With the secret [whsec]
    configured, a [payment_paid] webhook that carries no signature header
    is not rejected: it is answered 200 and the pending transaction is
    marked [PAID]. *)
Theorem webhook_without_signature_is_processed :
  Env.MOYASAR_WEBHOOK_SECRET (Scenario.env (Some "whsec")) = Some "whsec"
  /\ WebhookController.handleMoyasarWebhook (Scenario.env (Some "whsec"))
       (Scenario.webhook None (Scenario.event "payment_paid" "pay_1" None))
       (Scenario.world PENDING)
     = ({| Response.status := 200; Response.json := Received |},
        Scenario.world PAID).
Proof. split; reflexivity. Qed.

Lemma handler_unknown_transaction env data w :
  find (Repository.has_psp_transaction_id (PaymentData.id data))
    (World.transactions w) = None ->
  WebhookController.handlePaymentPaid env data w = (Returned tt, w)
  /\ WebhookController.handlePaymentFailed env data w = (Returned tt, w)
  /\ WebhookController.handlePaymentRefunded env data w = (Returned tt, w).
Proof.
  intros E.
  unfold WebhookController.handlePaymentPaid, WebhookController.handlePaymentFailed,
    WebhookController.handlePaymentRefunded, bind,
    Repository.findOne_psp_transaction_id.
  rewrite E. repeat split.
Qed.



(** ** Tenancy *)

(** C10. The get and refund endpoints never read [req.merchant]: whoever
    the authenticated merchant is, the response and the world after the
    call are the same; in particular merchant [B] reads and refunds the
    transaction [txn_1] that merchant [A] owns. *)
Theorem get_and_refund_ignore_merchant :
  (forall env (m1 m2 : option Merchant.t) id w,
     PaymentController.getPayment env
       {| PaymentController.merchant := m1;
          PaymentController.params_id := id;
          PaymentController.body := tt |} w
     = PaymentController.getPayment env
         {| PaymentController.merchant := m2;
            PaymentController.params_id := id;
            PaymentController.body := tt |} w)
  /\ (forall env (m1 m2 : option Merchant.t) id body w,
        PaymentController.refundPayment env
          {| PaymentController.merchant := m1;
             PaymentController.params_id := id;
             PaymentController.body := body |} w
        = PaymentController.refundPayment env
            {| PaymentController.merchant := m2;
               PaymentController.params_id := id;
               PaymentController.body := body |} w)
  /\ Transaction.merchant_id (Scenario.row PAID) = "A"
  /\ Response.status
       (fst (PaymentController.getPayment (Scenario.env None)
               (Scenario.get_call "B") (Scenario.world PAID))) = 200%nat
  /\ Response.status
       (fst (PaymentController.refundPayment (Scenario.env None)
               (Scenario.refund_call "B" 100.50%Q) (Scenario.world PAID)))
     = 200%nat
  /\ status_of "txn_1"
       (snd (PaymentController.refundPayment (Scenario.env None)
               (Scenario.refund_call "B" 100.50%Q) (Scenario.world PAID)))
     = Some REFUNDED.
Proof. repeat split. Qed.

(** * Further properties of the code *)

(** ** Strings *)

Lemma substring_0_all (s : string) (m : nat) :
  (String.length s <= m)%nat -> String.substring 0 m s = s.
Proof.
  revert m. induction s as [|c s IH]; intros m H.
  - destruct m; reflexivity.
  - destruct m; simpl in *; [lia|]. f_equal. apply IH. lia.
Qed.

Lemma substring_0_length (s : string) (m : nat) :
  String.length (String.substring 0 m s) = Nat.min m (String.length s).
Proof.
  revert m. induction s as [|c s IH]; intros m.
  - destruct m; reflexivity.
  - destruct m; simpl; [reflexivity|]. now rewrite IH.
Qed.

Lemma slice_last4_cons (c : ascii) (s : string) :
  (4 <= String.length s)%nat -> slice_last4 (String c s) = slice_last4 s.
Proof.
  intros H. unfold slice_last4. simpl String.length.
  replace (S (String.length s) - 4)%nat with (S (String.length s - 4)) by lia.
  reflexivity.
Qed.

(** [slice(-4)] keeps a suffix of at most four characters. *)
Lemma slice_last4_suffix (s : string) :
  (String.length (slice_last4 s) <= 4)%nat
  /\ exists p, s = p ++ slice_last4 s.
Proof.
  induction s as [|c s [IHl [p IHp]]].
  - split; [unfold slice_last4; simpl; lia|]. now exists "".
  - destruct (le_lt_dec 4 (String.length s)) as [H|H].
    + rewrite (slice_last4_cons c s H). split; [exact IHl|].
      exists (String c p). simpl. now rewrite <- IHp.
    + assert (E : slice_last4 (String c s) = String c s).
      { unfold slice_last4.
        replace (String.length (String c s) - 4)%nat with 0%nat by (simpl; lia).
        apply substring_0_all. simpl. lia. }
      rewrite E. split; [simpl; lia|]. now exists "".
Qed.

(** ** The status table and the enum *)

(** X1. The lookup table decodes the string value of every
    [PaymentStatus] member to that member, and the only other provider
    status that does not end in [FAILED] or outside the enum is
    [initiated], which reads as [PENDING]. *)
Theorem mapStatus_enum_values :
  (forall s, MoyasarConnector.mapStatus (PaymentStatus_value s) = Canonical s)
  /\ (forall key s,
        MoyasarConnector.mapStatus key = Canonical s ->
        s <> FAILED ->
        key = PaymentStatus_value s \/ (key = "initiated" /\ s = PENDING)).
Proof.
  split.
  - intros s. destruct s; reflexivity.
  - intros key s.
    unfold MoyasarConnector.mapStatus, MoyasarConnector.statusMap,
      MoyasarConnector.own_property.
    repeat match goal with
      | |- context [String.eqb ?a key] =>
          destruct (String.eqb_spec a key) as [<-|_]
      end;
      try (intros E; injection E as <-; intros N; auto; fail).
    destruct (MoyasarConnector.inherited key);
      [discriminate|intros E; injection E as <-; intros N; now elim N].
Qed.

Lemma mapStatus_enum_values_witness :
  "authorized" = PaymentStatus_value AUTHORIZED
  \/ ("authorized" = "initiated" /\ AUTHORIZED = PENDING).
Proof.
  apply (proj2 mapStatus_enum_values "authorized" AUTHORIZED);
    [reflexivity|discriminate].
Defined.

(** ** Authentication *)

Lemma substring_split (s : string) (n : nat) :
  s = String.substring 0 n s
      ++ String.substring n (String.length s - n) s.
Proof.
  revert n. induction s as [|c s IH]; intros n.
  - destruct n; reflexivity.
  - destruct n.
    + simpl String.substring at 1. rewrite Nat.sub_0_r.
      now rewrite substring_0_all by lia.
    + simpl. f_equal. apply IH.
Qed.

Lemma bearer_prefix (h : string) :
  String.prefix "Bearer " h = true -> h = "Bearer " ++ Auth.substring_from 7 h.
Proof.
  intros P. apply prefix_correct in P. simpl String.length in P.
  unfold Auth.substring_from. rewrite <- P at 1. apply substring_split.
Qed.

(** A request that gets through carries the key of a stored, active
    merchant. *)
Lemma authenticate_next
    (authorization : option string) (w w' : World.t) (m : Merchant.t) :
  Auth.authenticateApiKey authorization w = (Auth.Next m, w') ->
  w' = w
  /\ In m (World.merchants w)
  /\ Merchant.active m = true
  /\ authorization = Some ("Bearer " ++ Merchant.api_key m).
Proof.
  unfold Auth.authenticateApiKey, settle.
  destruct authorization as [h|]; [|discriminate].
  destruct (negb (truthy_string h) || negb (String.prefix "Bearer " h)) eqn:G;
    [discriminate|].
  apply orb_false_elim in G as [_ G]. apply negb_false_iff in G.
  unfold bind, Auth.findOne_api_key.
  destruct (find _ (World.merchants w)) as [m'|] eqn:F; [|discriminate].
  destruct (Merchant.active m') eqn:A; [|discriminate].
  simpl. intros E. injection E as <- <-.
  apply find_some in F as [Hin K]. apply String.eqb_eq in K.
  repeat split; auto. f_equal. rewrite K. now apply bearer_prefix.
Qed.


(** The middleware never writes, and the status of each rejection. *)
Lemma authenticate_cases
    (authorization : option string) (w : World.t) :
  snd (Auth.authenticateApiKey authorization w) = w
  /\ match fst (Auth.authenticateApiKey authorization w) with
     | Auth.Next _ => True
     | Auth.Reject status _ _ =>
         match authorization with
         | None => status = 401%nat
         | Some h =>
             if String.prefix "Bearer " h then
               match find (fun m => String.eqb (Merchant.api_key m)
                                      (Auth.substring_from 7 h))
                       (World.merchants w) with
               | None => status = 401%nat
               | Some m => status = 403%nat /\ Merchant.active m = false
               end
             else status = 401%nat
         end
     end.
Proof.
  unfold Auth.authenticateApiKey, settle.
  destruct authorization as [h|]; [|split; reflexivity].
  destruct (String.prefix "Bearer " h) eqn:P.
  - assert (T : truthy_string h = true) by (destruct h; [discriminate|reflexivity]).
    rewrite T. simpl. unfold bind, Auth.findOne_api_key.
    destruct (find _ (World.merchants w)) as [m|]; [|split; reflexivity].
    destruct (Merchant.active m) eqn:A; simpl; split; auto.
  - rewrite orb_true_r. split; reflexivity.
Qed.

Lemma substring_from_bearer (key : string) :
  Auth.substring_from 7 ("Bearer " ++ key) = key.
Proof.
  unfold Auth.substring_from. simpl. rewrite Nat.sub_0_r.
  apply substring_0_all. lia.
Qed.

Lemma prefix_bearer (key : string) : String.prefix "Bearer " ("Bearer " ++ key) = true.
Proof.
  apply prefix_correct. simpl. now destruct key.
Qed.

(** X2. The middleware calls [next()] with merchant [m] exactly when the
    [Authorization] header is [Bearer <key>], the lookup by that key
    returns [m], and [m] is active; it never writes. *)
Theorem authenticateApiKey_sound
    (authorization : option string) (w : World.t) (m : Merchant.t) :
  Auth.authenticateApiKey authorization w = (Auth.Next m, w)
  <-> exists key,
        authorization = Some ("Bearer " ++ key)
        /\ find (fun m => String.eqb (Merchant.api_key m) key) (World.merchants w)
           = Some m
        /\ Merchant.active m = true.
Proof.
  split.
  - unfold Auth.authenticateApiKey, settle.
    destruct authorization as [h|]; [|discriminate].
    destruct (negb (truthy_string h) || negb (String.prefix "Bearer " h)) eqn:G;
      [discriminate|].
    apply orb_false_elim in G as [_ G]. apply negb_false_iff in G.
    unfold bind, Auth.findOne_api_key.
    destruct (find _ (World.merchants w)) as [m'|] eqn:F; [|discriminate].
    destruct (Merchant.active m') eqn:A; [|discriminate].
    simpl. intros E. injection E as <-.
    exists (Auth.substring_from 7 h). repeat split; auto.
    f_equal. now apply bearer_prefix.
  - intros (key & -> & F & A).
    unfold Auth.authenticateApiKey, settle.
    rewrite prefix_bearer, substring_from_bearer.
    change (truthy_string ("Bearer " ++ key)) with true.
    cbn [negb orb]. cbv beta iota.
    unfold bind, Auth.findOne_api_key. cbv beta iota.
    rewrite F, A. reflexivity.
Qed.

Lemma authenticateApiKey_sound_witness :
  Auth.authenticateApiKey (Some "Bearer pk_test_A") (Fixture.world PAID)
  = (Auth.Next Fixture.merchant_A, Fixture.world PAID).
Proof.
  apply (proj2 (authenticateApiKey_sound (Some "Bearer pk_test_A")
                  (Fixture.world PAID) Fixture.merchant_A)).
  exists "pk_test_A". repeat split.
Defined.

(** X3. Every request the middleware stops leaves the world as it was
    and is answered 401 without a header, with a header that does not
    start with [Bearer ], or with a token that is no merchant's key, and
    403 when the key belongs to an inactive merchant. *)
Theorem authenticateApiKey_rejections
    (authorization : option string) (w : World.t) :
  snd (Auth.authenticateApiKey authorization w) = w
  /\ (authorization = None ->
      fst (Auth.authenticateApiKey authorization w) = Auth.unauthorized)
  /\ (forall h,
        authorization = Some h -> String.prefix "Bearer " h = false ->
        fst (Auth.authenticateApiKey authorization w) = Auth.unauthorized)
  /\ (forall key,
        authorization = Some ("Bearer " ++ key) ->
        find (fun m => String.eqb (Merchant.api_key m) key) (World.merchants w)
        = None ->
        fst (Auth.authenticateApiKey authorization w)
        = Auth.Reject 401 "Unauthorized" "Invalid API key")
  /\ (forall key m,
        authorization = Some ("Bearer " ++ key) ->
        find (fun m => String.eqb (Merchant.api_key m) key) (World.merchants w)
        = Some m ->
        Merchant.active m = false ->
        fst (Auth.authenticateApiKey authorization w)
        = Auth.Reject 403 "Forbidden" "Merchant account is inactive").
Proof.
  split; [apply authenticate_cases|].
  unfold Auth.authenticateApiKey, settle.
  split; [now intros ->|]. split.
  - intros h -> P. rewrite P. now rewrite orb_true_r.
  - split.
    + intros key -> F. rewrite prefix_bearer, substring_from_bearer.
      change (truthy_string ("Bearer " ++ key)) with true.
      cbn [negb orb]. cbv beta iota.
      unfold bind, Auth.findOne_api_key. cbv beta iota.
      now rewrite F.
    + intros key m -> F A. rewrite prefix_bearer, substring_from_bearer.
      change (truthy_string ("Bearer " ++ key)) with true.
      cbn [negb orb]. cbv beta iota.
      unfold bind, Auth.findOne_api_key. cbv beta iota.
      now rewrite F, A.
Qed.

Lemma authenticateApiKey_rejections_witness :
  Auth.authenticateApiKey (Some "Bearer pk_test_C") (Fixture.world PAID)
  = (Auth.Reject 403 "Forbidden" "Merchant account is inactive",
     Fixture.world PAID).
Proof.
  destruct (authenticateApiKey_rejections (Some "Bearer pk_test_C")
              (Fixture.world PAID)) as (W & _ & _ & _ & R).
  specialize (R "pk_test_C" Fixture.merchant_C eq_refl eq_refl eq_refl).
  destruct (Auth.authenticateApiKey _ _) as [o w']. simpl in *. now subst.
Defined.

(** ** What the calls do to the rows *)

Lemma replace_row_ids (tx : Transaction.t) rows :
  map Transaction.id (Repository.replace_row tx rows) = map Transaction.id rows.
Proof.
  unfold Repository.replace_row. induction rows as [|r rows IH]; simpl; [reflexivity|].
  rewrite IH. f_equal.
  unfold Repository.has_id. destruct (String.eqb_spec (Transaction.id r) (Transaction.id tx));
    congruence.
Qed.

Lemma unique_ids_inj rows (x y : Transaction.t) :
  unique_ids rows -> In x rows -> In y rows ->
  Transaction.id x = Transaction.id y -> x = y.
Proof.
  unfold unique_ids. induction rows as [|r rows IH]; simpl; [tauto|].
  intros N Hx Hy E. inversion N as [|? ? Hn N']; subst.
  destruct Hx as [->|Hx], Hy as [->|Hy]; auto.
  - elim Hn. rewrite E. now apply in_map.
  - elim Hn. rewrite <- E. now apply in_map.
Qed.

Lemma replace_row_fixed (tx' : Transaction.t) rows :
  (forall r, In r rows -> Transaction.id r = Transaction.id tx' ->
             fixed_columns tx' = fixed_columns r) ->
  map fixed_columns (Repository.replace_row tx' rows) = map fixed_columns rows.
Proof.
  unfold Repository.replace_row. induction rows as [|r rows IH]; simpl; intros H;
    [reflexivity|].
  rewrite IH by auto. f_equal.
  unfold Repository.has_id.
  destruct (String.eqb_spec (Transaction.id r) (Transaction.id tx')); auto.
Qed.

Lemma fixed_columns_id a b :
  fixed_columns a = fixed_columns b -> Transaction.id a = Transaction.id b.
Proof. unfold fixed_columns. congruence. Qed.

Lemma updates_only_ids rows rows' :
  updates_only rows rows' -> map Transaction.id rows' = map Transaction.id rows.
Proof.
  intros [->|(tx & tx' & _ & _ & ->)]; [reflexivity|apply replace_row_ids].
Qed.

Lemma updates_only_fixed rows rows' :
  unique_ids rows -> updates_only rows rows' ->
  map fixed_columns rows' = map fixed_columns rows.
Proof.
  intros N [->|(tx & tx' & Hin & F & ->)]; [reflexivity|].
  apply replace_row_fixed. intros r Hr E.
  rewrite F. f_equal. symmetry.
  apply (unique_ids_inj rows r tx N Hr Hin).
  rewrite E. now apply fixed_columns_id.
Qed.

Lemma updates_only_save (tx tx' : Transaction.t) w :
  In tx (World.transactions w) ->
  fixed_columns tx' = fixed_columns tx ->
  updates_only (World.transactions w)
    (World.transactions (snd (Repository.save tx' w))).
Proof. intros Hin F. right. exists tx, tx'. auto. Qed.

Lemma getPayment_updates_only env id w :
  updates_only (World.transactions w)
    (World.transactions (snd (PaymentService.getPayment env id w))).
Proof.
  unfold PaymentService.getPayment, try_catch, bind, Repository.findOne_id.
  destruct (find (Repository.has_id id) (World.transactions w)) as [tx|] eqn:F;
    [|now left].
  apply find_some in F as [Hin _]. unfold await.
  destruct (PaymentService.getPSPConnector env _) as [c|e]; [|now left].
  destruct (PaymentService.connector_getPayment c _) as [r|e]; [|now left].
  destruct (PaymentService.status_differs _ _); [|now left].
  unfold Repository.enum_column.
  destruct (PaymentResponse.status r) as [s|k]; [|now left].
  simpl. right. exists tx, (Transaction.set_status tx s). auto.
Qed.

Lemma refundPayment_updates_only env id req w :
  updates_only (World.transactions w)
    (World.transactions (snd (PaymentService.refundPayment env id req w))).
Proof.
  unfold PaymentService.refundPayment, try_catch, bind, Repository.findOne_id.
  destruct (find (Repository.has_id id) (World.transactions w)) as [tx|] eqn:F;
    [|now left].
  apply find_some in F as [Hin _]. unfold await.
  destruct (negb _); [now left|].
  destruct (PaymentService.getPSPConnector env _) as [c|e]; [|now left].
  destruct (PaymentService.connector_refundPayment c _ req) as [r|e]; [|now left].
  simpl. right.
  destruct (Qle_bool _ _).
  - exists tx, (Transaction.set_status tx REFUNDED). auto.
  - exists tx, (Transaction.set_status tx PARTIALLY_REFUNDED). auto.
Qed.

(** A handler that wrote the entity [tx'] it had loaded as [tx]. *)
Lemma save_forward_updates_only env tx tx' ev d w :
  In tx (World.transactions w) ->
  fixed_columns tx' = fixed_columns tx ->
  updates_only (World.transactions w)
    (World.transactions
       (snd ((Repository.save tx' ;;;
              WebhookController.forwardWebhookToMerchant env tx' ev d) w))).
Proof.
  intros Hin F. unfold bind, Repository.save.
  rewrite forward_transactions. right. exists tx, tx'. auto.
Qed.

Lemma handlers_update_only env data w :
  updates_only (World.transactions w)
    (World.transactions (snd (WebhookController.handlePaymentPaid env data w)))
  /\ updates_only (World.transactions w)
       (World.transactions (snd (WebhookController.handlePaymentFailed env data w)))
  /\ updates_only (World.transactions w)
       (World.transactions (snd (WebhookController.handlePaymentRefunded env data w))).
Proof.
  destruct (find (Repository.has_psp_transaction_id (PaymentData.id data))
              (World.transactions w)) as [tx|] eqn:F.
  - pose proof (proj1 (find_some _ _ F)) as Hin.
    unfold WebhookController.handlePaymentPaid,
      WebhookController.handlePaymentFailed,
      WebhookController.handlePaymentRefunded.
    repeat split; lookup_by_psp_id F.
    + now apply save_forward_updates_only with (tx := tx).
    + now apply save_forward_updates_only with (tx := tx).
    + destruct (WebhookController.refund_covers data tx);
        now apply save_forward_updates_only with (tx := tx).
  - destruct (handler_unknown_transaction env data w F) as (P & Fl & R).
    rewrite P, Fl, R. repeat split; now left.
Qed.

Lemma webhook_updates_only env req w :
  updates_only (World.transactions w)
    (World.transactions (snd (WebhookController.handleMoyasarWebhook env req w))).
Proof.
  destruct (handlers_update_only env
              (WebhookEvent.data (WebhookRequest.body req)) w) as (P & F & R).
  unfold WebhookController.handleMoyasarWebhook, PaymentController.respond.
  destruct (WebhookController.rejects_signature env req); [now left|].
  unfold bind.
  destruct (String.eqb _ "payment_paid").
  { destruct (WebhookController.handlePaymentPaid env _ w) as [[[]|e] w']; exact P. }
  destruct (String.eqb _ "payment_failed").
  { destruct (WebhookController.handlePaymentFailed env _ w) as [[[]|e] w']; exact F. }
  destruct (String.eqb _ "payment_refunded").
  { destruct (WebhookController.handlePaymentRefunded env _ w) as [[[]|e] w']; exact R. }
  now left.
Qed.

(** What a create leaves: the rows as they were, or one more row under a
    generated key. *)
Lemma createPayment_rows env merchantId request w :
  let rows := World.transactions w in
  let rows' :=
    World.transactions (snd (PaymentService.createPayment env merchantId request w)) in
  rows' = rows
  \/ exists row, rows' = (rows ++ [row])%list
                 /\ Transaction.id row = Env.uuid env rows.
Proof.
  simpl.
  destruct (PaymentService.createPayment env merchantId request w) as [[r|e] w'] eqn:E.
  - right. revert E.
    unfold PaymentService.createPayment, try_catch.
    rewrite (bind_returned _ _ w MOYASAR w (selectPSP_MOYASAR request w)).
    unfold bind, await, PaymentService.getPSPConnector. simpl.
    destruct (MoyasarConnector.createPayment env request) as [p|e];
      [|unfold throw; discriminate].
    unfold Repository.enum_column.
    destruct (PaymentResponse.status p) as [s|k]; [|unfold throw; discriminate].
    unfold ret, Repository.insert. simpl. intros E. injection E as _ <-.
    eexists. simpl. split; reflexivity.
  - left. revert E.
    unfold PaymentService.createPayment, try_catch.
    rewrite (bind_returned _ _ w MOYASAR w (selectPSP_MOYASAR request w)).
    unfold bind, await, PaymentService.getPSPConnector. simpl.
    destruct (MoyasarConnector.createPayment env request) as [p|e'];
      [|unfold throw; intros E; now injection E as _ <-].
    unfold Repository.enum_column.
    destruct (PaymentResponse.status p) as [s|k];
      [discriminate|unfold throw; intros E; now injection E as _ <-].
Qed.

(** X4. Whatever sequence of creates, polls, refunds and webhooks runs,
    the keys of the rows that were there stay where they were, in order:
    no call deletes a row, re-keys one, or inserts one anywhere but at the
    end; polls, refunds and webhooks add none at all. *)
Theorem ledger_is_append_only (env : Env.t) (calls : list Call) (w : World.t) :
  (exists added,
     map Transaction.id (World.transactions (run_all env calls w))
     = (map Transaction.id (World.transactions w) ++ added)%list)
  /\ ((forall c, In c calls -> match c with Create _ _ => False | _ => True end) ->
      map Transaction.id (World.transactions (run_all env calls w))
      = map Transaction.id (World.transactions w)).
Proof.
  revert w. induction calls as [|c calls IH]; intros w.
  - split; [exists []; now rewrite app_nil_r|reflexivity].
  - simpl. destruct (IH (run env c w)) as [[added A] B].
    assert (S : exists a, map Transaction.id (World.transactions (run env c w))
                          = (map Transaction.id (World.transactions w) ++ a)%list
                          /\ (match c with Create _ _ => False | _ => True end ->
                              a = [])).
    { destruct c as [m r|i|i r|r]; simpl.
      - destruct (createPayment_rows env m r w) as [->|(row & -> & _)].
        + exists []. now rewrite app_nil_r.
        + exists [Transaction.id row]. rewrite map_app. tauto.
      - exists []. rewrite app_nil_r.
        split; [apply updates_only_ids, getPayment_updates_only|auto].
      - exists []. rewrite app_nil_r.
        split; [apply updates_only_ids, refundPayment_updates_only|auto].
      - exists []. rewrite app_nil_r.
        split; [apply updates_only_ids, webhook_updates_only|auto]. }
    destruct S as (a & Sa & Sn). split.
    + exists (a ++ added)%list. rewrite A, Sa. now rewrite app_assoc.
    + intros H. rewrite B by (intros c' Hc; apply H; now right).
      rewrite Sa, (Sn (H c (or_introl eq_refl))). now rewrite app_nil_r.
Qed.

Lemma ledger_is_append_only_witness :
  map Transaction.id
    (World.transactions
       (run_all Fixture.env
          [Get "txn_1"; Webhook Fixture.paid_event;
           Refund "txn_1" (Scenario.refund 50.25%Q)]
          (Fixture.world PENDING)))
  = ["txn_0"; "txn_1"].
Proof.
  apply (proj2 (ledger_is_append_only Fixture.env
                  [Get "txn_1"; Webhook Fixture.paid_event;
                   Refund "txn_1" (Scenario.refund 50.25%Q)]
                  (Fixture.world PENDING))).
  intros c [<-|[<-|[<-|[]]]]; exact I.
Defined.

Lemma run_unique_fixed env c w :
  generates_fresh_keys env ->
  unique_ids (World.transactions w) ->
  unique_ids (World.transactions (run env c w))
  /\ exists added,
       map fixed_columns (World.transactions (run env c w))
       = (map fixed_columns (World.transactions w) ++ added)%list.
Proof.
  intros G N.
  assert (U : forall rows', updates_only (World.transactions w) rows' ->
              unique_ids rows'
              /\ exists added, map fixed_columns rows'
                   = (map fixed_columns (World.transactions w) ++ added)%list).
  { intros rows' H. split.
    - unfold unique_ids. now rewrite (updates_only_ids _ _ H).
    - exists []. rewrite app_nil_r. now apply updates_only_fixed. }
  destruct c as [m r|i|i r|r]; simpl.
  - destruct (createPayment_rows env m r w) as [->|(row & -> & K)].
    + split; [exact N|]. exists []. now rewrite app_nil_r.
    + split.
      * unfold unique_ids. rewrite map_app. simpl.
        apply NoDup_app; [exact N|constructor; [tauto|constructor]|].
        intros x Hx [<-|[]]. apply (G (World.transactions w)). now rewrite <- K.
      * exists [fixed_columns row]. now rewrite map_app.
  - apply U, getPayment_updates_only.
  - apply U, refundPayment_updates_only.
  - apply U, webhook_updates_only.
Qed.

(** X5. With primary keys unique and a key generator that never reuses a
    key, every sequence of calls keeps the keys unique and leaves each
    existing row its key, owner, provider, provider id, amount, currency,
    payment method and creation time: rows are only ever appended, and a
    stored amount is never rewritten. *)
Theorem fixed_columns_never_change
    (env : Env.t) (calls : list Call) (w : World.t) :
  generates_fresh_keys env ->
  unique_ids (World.transactions w) ->
  unique_ids (World.transactions (run_all env calls w))
  /\ exists added,
       map fixed_columns (World.transactions (run_all env calls w))
       = (map fixed_columns (World.transactions w) ++ added)%list.
Proof.
  intros G. revert w. induction calls as [|c calls IH]; intros w N.
  - split; [exact N|]. exists []. now rewrite app_nil_r.
  - simpl. destruct (run_unique_fixed env c w G N) as [N1 [a1 A1]].
    destruct (IH _ N1) as [N2 [a2 A2]].
    split; [exact N2|]. exists (a1 ++ a2)%list.
    rewrite A2, A1. now rewrite app_assoc.
Qed.

Lemma length_append (s t : string) :
  String.length (s ++ t) = (String.length s + String.length t)%nat.
Proof. induction s as [|c s IH]; simpl; [reflexivity|now rewrite IH]. Qed.

Lemma longer_key_longer rows r :
  In r rows ->
  (String.length (Transaction.id r) < String.length (Fixture.longer_key rows))%nat.
Proof.
  induction rows as [|x rows IH]; simpl; [tauto|].
  intros [->|H]; rewrite length_append; [lia|].
  specialize (IH H). lia.
Qed.

Lemma longer_key_fresh : generates_fresh_keys Fixture.env.
Proof.
  intros rows H. simpl in H. apply in_map_iff in H as (r & E & Hr).
  pose proof (longer_key_longer rows r Hr) as L. rewrite E in L. lia.
Qed.

Lemma fixed_columns_never_change_witness :
  unique_ids (World.transactions (Fixture.world PAID))
  /\ unique_ids
       (World.transactions
          (run_all Fixture.env
             [Create "A" (Scenario.request 12.34%Q); Get "txn_1";
              Refund "txn_1" (Scenario.refund 50.25%Q)]
             (Fixture.world PAID))).
Proof.
  assert (N : unique_ids (World.transactions (Fixture.world PAID))).
  { unfold unique_ids. simpl.
    constructor; [simpl; intros [H|[]]; discriminate|].
    constructor; [simpl; tauto|constructor]. }
  split; [exact N|].
  exact (proj1 (fixed_columns_never_change Fixture.env _ _ longer_key_fresh N)).
Defined.

(** ** Creating, then finding *)

Lemma find_app_new (f : Transaction.t -> bool) rows row :
  (forall r, In r rows -> f r = false) -> f row = true ->
  find f (rows ++ [row])%list = Some row.
Proof.
  induction rows as [|x rows IH]; simpl; intros H T; [now rewrite T|].
  rewrite (H x) by auto. apply IH; auto.
Qed.

(** The row and the provider's answer behind a create that returned. *)
Lemma createPayment_returned env merchantId request w response w' :
  PaymentService.createPayment env merchantId request w = (Returned response, w') ->
  exists data row,
    Env.post_payments env (MoyasarConnector.buildPaymentPayload request) = inr data
    /\ response
       = PaymentResponse.with_id (MoyasarConnector.mapMoyasarResponse data)
           (Transaction.id row)
    /\ World.transactions w' = (World.transactions w ++ [row])%list
    /\ World.merchants w' = World.merchants w
    /\ World.outbox w' = World.outbox w
    /\ Transaction.id row = Env.uuid env (World.transactions w)
    /\ Transaction.merchant_id row = merchantId
    /\ Transaction.psp_provider row = MOYASAR
    /\ Transaction.psp_transaction_id row = Some (MoyasarPayment.id data)
    /\ Transaction.amount row = PaymentRequest.amount request
    /\ Transaction.card_last_four row
       = match MoyasarPayment.source data with
         | Some s => option_map slice_last4 (ResponseSource.number s)
         | None => None
         end
    /\ MoyasarConnector.mapStatus (MoyasarPayment.status data)
       = Canonical (Transaction.status row).
Proof.
  unfold PaymentService.createPayment, try_catch.
  rewrite (bind_returned _ _ w MOYASAR w (selectPSP_MOYASAR request w)).
  unfold bind, await, PaymentService.getPSPConnector. simpl.
  unfold MoyasarConnector.createPayment.
  destruct (Env.post_payments env _) as [e|data] eqn:P;
    [unfold throw; discriminate|].
  unfold Repository.enum_column. simpl.
  destruct (MoyasarConnector.mapStatus (MoyasarPayment.status data)) as [s|k] eqn:S;
    [|unfold throw; discriminate].
  unfold ret, Repository.insert. simpl. intros E. injection E as <- <-.
  exists data. eexists. simpl. repeat split; auto.
Qed.

(** X6. The id a create returns is the ledger's generated key, not the
    provider's id: when that key is not in use, a lookup by the returned
    id finds the new row, which is owned by the caller, routed to Moyasar
    and keeps the provider's id; when no earlier row carries that
    provider id, a webhook's lookup by it finds the same row. *)
Theorem createPayment_then_lookup
    (env : Env.t) (merchantId : string) (request : PaymentRequest.t)
    (w w' : World.t) (response : PaymentResponse.t) :
  ~ In (Env.uuid env (World.transactions w))
       (map Transaction.id (World.transactions w)) ->
  PaymentService.createPayment env merchantId request w = (Returned response, w') ->
  exists data row,
    Env.post_payments env (MoyasarConnector.buildPaymentPayload request) = inr data
    /\ PaymentResponse.id response = Env.uuid env (World.transactions w)
    /\ find (Repository.has_id (PaymentResponse.id response))
         (World.transactions w') = Some row
    /\ Transaction.merchant_id row = merchantId
    /\ Transaction.psp_provider row = MOYASAR
    /\ Transaction.psp_transaction_id row = Some (MoyasarPayment.id data)
    /\ (find (Repository.has_psp_transaction_id (MoyasarPayment.id data))
          (World.transactions w) = None ->
        find (Repository.has_psp_transaction_id (MoyasarPayment.id data))
          (World.transactions w') = Some row).
Proof.
  intros Fresh H.
  destruct (createPayment_returned _ _ _ _ _ _ H)
    as (data & row & P & -> & Rows & _ & _ & K & M & Psp & Pid & _).
  exists data, row. simpl. rewrite Rows.
  repeat split; auto.
  - apply find_app_new.
    + intros r Hr. unfold Repository.has_id.
      apply String.eqb_neq. intros E. apply Fresh. rewrite <- K, <- E.
      now apply in_map.
    + apply has_id_refl.
  - intros None. apply find_app_new.
    + intros r Hr. exact (find_none _ _ None r Hr).
    + unfold Repository.has_psp_transaction_id. rewrite Pid. apply String.eqb_refl.
Qed.

Lemma createPayment_then_lookup_witness :
  exists row,
    find (Repository.has_id "k")
      (World.transactions
         (snd (PaymentService.createPayment Fixture.env "A"
                 (Scenario.request 12.34%Q) Scenario.empty_world)))
    = Some row
    /\ Transaction.merchant_id row = "A".
Proof.
  destruct (createPayment_then_lookup Fixture.env "A" (Scenario.request 12.34%Q)
              Scenario.empty_world _ _ (fun H => H) eq_refl)
    as (data & row & _ & _ & F & M & _).
  exists row. split; [exact F|exact M].
Defined.

(** X7. The ledger never holds more of a card than the provider's masked
    number allows: the [card_last_four] a create stores is absent or a
    suffix, at most four characters long, of the number in the provider's
    response. *)
Theorem card_last_four_is_a_short_suffix
    (env : Env.t) (merchantId : string) (request : PaymentRequest.t)
    (w w' : World.t) (response : PaymentResponse.t) :
  PaymentService.createPayment env merchantId request w = (Returned response, w') ->
  exists row,
    World.transactions w' = (World.transactions w ++ [row])%list
    /\ match Transaction.card_last_four row with
       | None => True
       | Some last =>
           (String.length last <= 4)%nat
           /\ exists source number prefix,
                PaymentResponse.source response = Some source
                /\ ResponseSource.number source = Some number
                /\ number = prefix ++ last
       end.
Proof.
  intros H.
  destruct (createPayment_returned _ _ _ _ _ _ H)
    as (data & row & _ & -> & Rows & _ & _ & _ & _ & _ & _ & _ & L & _).
  exists row. split; [exact Rows|]. rewrite L. simpl.
  destruct (MoyasarPayment.source data) as [s|]; [|exact I].
  destruct (ResponseSource.number s) as [n|] eqn:N; [|exact I]. simpl.
  destruct (slice_last4_suffix n) as [Len [p Hp]].
  split; [exact Len|]. exists s, n, p. auto.
Qed.

Lemma card_last_four_is_a_short_suffix_witness :
  exists row,
    World.transactions
      (snd (PaymentService.createPayment Fixture.env_card "A"
              (Scenario.request 12.34%Q) Scenario.empty_world)) = [row]
    /\ Transaction.card_last_four row = Some "1111".
Proof.
  destruct (card_last_four_is_a_short_suffix Fixture.env_card "A"
              (Scenario.request 12.34%Q) Scenario.empty_world _ _ eq_refl)
    as (row & Rows & _).
  exists row. split; [exact Rows|].
  simpl in Rows. injection Rows as <-. reflexivity.
Defined.

(** ** Failures of the get and refund paths *)



(** X9. A row routed to a provider other than Moyasar cannot be polled or
    refunded: the service throws [Unsupported PSP provider: <name>], the
    endpoint answers 500, and the row is not touched. *)
Theorem unsupported_provider
    (env : Env.t) (m : option Merchant.t) (id : string)
    (body : option RefundRequest.t) (w : World.t) (tx : Transaction.t) :
  find (Repository.has_id id) (World.transactions w) = Some tx ->
  Transaction.psp_provider tx <> MOYASAR ->
  PaymentService.getPayment env id w
  = (Thrown ("Failed to get payment: Unsupported PSP provider: "
             ++ PSPProvider_value (Transaction.psp_provider tx)), w)
  /\ Response.status
       (fst (PaymentController.getPayment env
               {| PaymentController.merchant := m;
                  PaymentController.params_id := id;
                  PaymentController.body := tt |} w)) = 500%nat
  /\ (Transaction.status tx = PAID ->
      PaymentService.refundPayment env id body w
      = (Thrown ("Failed to refund payment: Unsupported PSP provider: "
                 ++ PSPProvider_value (Transaction.psp_provider tx)), w)
      /\ Response.status
           (fst (PaymentController.refundPayment env
                   {| PaymentController.merchant := m;
                      PaymentController.params_id := id;
                      PaymentController.body := body |} w)) = 500%nat).
Proof.
  intros F P.
  assert (G : PaymentService.getPayment env id w
              = (Thrown ("Failed to get payment: Unsupported PSP provider: "
                         ++ PSPProvider_value (Transaction.psp_provider tx)), w)).
  { unfold PaymentService.getPayment, try_catch, bind, Repository.findOne_id.
    rewrite F. unfold await, PaymentService.getPSPConnector.
    destruct (Transaction.psp_provider tx); [contradiction| | |]; reflexivity. }
  split; [exact G|]. split.
  - unfold PaymentController.getPayment, PaymentController.respond, bind. simpl.
    rewrite G. destruct (Transaction.psp_provider tx); reflexivity.
  - intros S.
    assert (R : PaymentService.refundPayment env id body w
                = (Thrown ("Failed to refund payment: Unsupported PSP provider: "
                           ++ PSPProvider_value (Transaction.psp_provider tx)), w)).
    { unfold PaymentService.refundPayment, try_catch, bind, Repository.findOne_id.
      rewrite F, S. simpl. unfold await, PaymentService.getPSPConnector.
      destruct (Transaction.psp_provider tx); [contradiction| | |]; reflexivity. }
    split; [exact R|].
    unfold PaymentController.refundPayment, PaymentController.respond, bind. simpl.
    rewrite R. destruct (Transaction.psp_provider tx); reflexivity.
Qed.

Lemma unsupported_provider_witness :
  PaymentService.refundPayment Fixture.env "txn_0" None (Fixture.world PAID)
  = (Thrown "Failed to refund payment: Unsupported PSP provider: hyperpay",
     Fixture.world PAID).
Proof.
  assert (P : Transaction.psp_provider Fixture.row_B <> MOYASAR) by discriminate.
  destruct (unsupported_provider Fixture.env None "txn_0" None
              (Fixture.world PAID) Fixture.row_B eq_refl P) as (_ & _ & R).
  exact (proj1 (R eq_refl)).
Defined.

(** X10. When the provider call of a poll or of a refund fails, the
    service rethrows the connector's message under its own prefix and the
    world is unchanged; the refund endpoint then picks its status from the
    text of that message: 404 when it contains [not found], else 400 when
    it contains [Only paid transactions], else 500. *)
Theorem provider_failure_on_get_and_refund
    (env : Env.t) (m : option Merchant.t) (id : string)
    (body : option RefundRequest.t) (w : World.t) (tx : Transaction.t) :
  find (Repository.has_id id) (World.transactions w) = Some tx ->
  Transaction.psp_provider tx = MOYASAR ->
  (forall e,
     MoyasarConnector.getPayment env
       (PaymentService.path_segment (Transaction.psp_transaction_id tx))
     = Thrown e ->
     PaymentService.getPayment env id w
     = (Thrown ("Failed to get payment: " ++ e), w))
  /\ (forall e,
        Transaction.status tx = PAID ->
        MoyasarConnector.refundPayment env
          (PaymentService.path_segment (Transaction.psp_transaction_id tx)) body
        = Thrown e ->
        let message := "Failed to refund payment: " ++ e in
        PaymentService.refundPayment env id body w = (Thrown message, w)
        /\ snd (PaymentController.refundPayment env
                  {| PaymentController.merchant := m;
                     PaymentController.params_id := id;
                     PaymentController.body := body |} w) = w
        /\ Response.status
             (fst (PaymentController.refundPayment env
                     {| PaymentController.merchant := m;
                        PaymentController.params_id := id;
                        PaymentController.body := body |} w))
           = (if includes message "not found" then 404
              else if includes message "Only paid transactions" then 400
              else 500)%nat).
Proof.
  intros F P. split.
  - intros e E.
    unfold PaymentService.getPayment, try_catch, bind, Repository.findOne_id.
    rewrite F, P. simpl. unfold await. now rewrite E.
  - intros e S E message.
    assert (R : PaymentService.refundPayment env id body w = (Thrown message, w)).
    { unfold PaymentService.refundPayment, try_catch, bind, Repository.findOne_id.
      rewrite F, S, P. simpl. unfold await. now rewrite E. }
    split; [exact R|].
    unfold PaymentController.refundPayment, PaymentController.respond, bind. simpl.
    rewrite R. split; [reflexivity|].
    destruct (includes message "not found"); [reflexivity|].
    destruct (includes message "Only paid transactions"); reflexivity.
Qed.

Lemma provider_failure_on_get_and_refund_witness :
  snd (PaymentController.refundPayment Fixture.env_merchant_down
         (Scenario.refund_call "A" 50.25%Q) (Fixture.world PAID))
  = Fixture.world PAID
  /\ Response.status
       (fst (PaymentController.refundPayment Fixture.env_merchant_down
               (Scenario.refund_call "A" 50.25%Q) (Fixture.world PAID)))
     = 500%nat.
Proof.
  destruct (provider_failure_on_get_and_refund Fixture.env_merchant_down
              (Some (Scenario.merchant "A")) "txn_1" (Scenario.refund 50.25%Q)
              (Fixture.world PAID) (Scenario.row PAID) eq_refl eq_refl)
    as [_ R].
  destruct (R "Moyasar Error: card declined" eq_refl eq_refl) as (_ & W & S).
  split; [exact W|exact S].
Defined.

(** ** The webhook endpoint, continued *)

(** Forwarding swallows its own failures. *)
Lemma forward_returns env tx ev d w :
  fst (WebhookController.forwardWebhookToMerchant env tx ev d w) = Returned tt.
Proof.
  unfold WebhookController.forwardWebhookToMerchant, try_catch, bind,
    Repository.findOne_merchant, WebhookController.axios_post, ret.
  destruct (find _ (World.merchants w)) as [m|]; [|reflexivity].
  destruct (Merchant.webhook_url m) as [u|]; [|reflexivity].
  destruct (truthy_string u); [|reflexivity]. simpl.
  destruct (Env.merchant_endpoint env _); reflexivity.
Qed.

Lemma save_forward_returns env tx ev d w :
  fst ((Repository.save tx ;;;
        WebhookController.forwardWebhookToMerchant env tx ev d) w) = Returned tt.
Proof. unfold bind, Repository.save. apply forward_returns. Qed.

Lemma save_forward_rows env tx ev d w :
  World.transactions
    (snd ((Repository.save tx ;;;
           WebhookController.forwardWebhookToMerchant env tx ev d) w))
  = Repository.replace_row tx (World.transactions w).
Proof. unfold bind, Repository.save. now rewrite forward_transactions. Qed.



Lemma truthy_string_iff s : truthy_string s = true <-> s <> "".
Proof. destruct s; simpl; split; intros H; congruence. Qed.

(** X12. The signature check rejects exactly the requests that carry a
    non-empty signature different from the HMAC of the serialized body
    under a configured, non-empty secret. *)
Theorem rejects_signature_iff (env : Env.t) (req : WebhookRequest.t) :
  WebhookController.rejects_signature env req = true
  <-> exists secret signature,
        Env.MOYASAR_WEBHOOK_SECRET env = Some secret
        /\ secret <> ""
        /\ WebhookRequest.x_moyasar_signature req = Some signature
        /\ signature <> ""
        /\ signature
           <> Env.hmac_sha256_hex env secret
                (Env.stringify_event env (WebhookRequest.body req)).
Proof.
  unfold WebhookController.rejects_signature, MoyasarConnector.verifyWebhookSignature.
  split.
  - destruct (Env.MOYASAR_WEBHOOK_SECRET env) as [secret|]; [|discriminate].
    destruct (WebhookRequest.x_moyasar_signature req) as [signature|]; [|discriminate].
    destruct (truthy_string secret) eqn:Ts; [|discriminate].
    destruct (truthy_string signature) eqn:Tg; [|discriminate].
    simpl. intros H. apply negb_true_iff in H. apply String.eqb_neq in H.
    exists secret, signature.
    repeat split; try (now apply truthy_string_iff). congruence.
  - intros (secret & signature & -> & Ts & -> & Tg & N).
    apply truthy_string_iff in Ts. apply truthy_string_iff in Tg.
    rewrite Ts, Tg. simpl. apply negb_true_iff, String.eqb_neq. congruence.
Qed.

(** What a webhook does to the rows. *)
Lemma webhook_rows env req w :
  World.transactions (snd (WebhookController.handleMoyasarWebhook env req w))
  = if WebhookController.rejects_signature env req
    then World.transactions w
    else
      match find (Repository.has_psp_transaction_id
                    (PaymentData.id (WebhookEvent.data (WebhookRequest.body req))))
              (World.transactions w) with
      | None => World.transactions w
      | Some tx =>
          match written_by (WebhookRequest.body req) tx with
          | Some tx' => Repository.replace_row tx' (World.transactions w)
          | None => World.transactions w
          end
      end.
Proof.
  unfold WebhookController.handleMoyasarWebhook, PaymentController.respond.
  destruct (WebhookController.rejects_signature env req); [reflexivity|].
  set (data := WebhookEvent.data (WebhookRequest.body req)).
  destruct (find (Repository.has_psp_transaction_id (PaymentData.id data))
              (World.transactions w)) as [tx|] eqn:F.
  - unfold written_by. fold data. unfold bind at 1.
    destruct (String.eqb _ "payment_paid").
    { unfold WebhookController.handlePaymentPaid. lookup_by_psp_id F.
      pose proof (save_forward_returns env (Transaction.set_status tx PAID)
                    "payment.paid" data w) as E.
      pose proof (save_forward_rows env (Transaction.set_status tx PAID)
                    "payment.paid" data w) as Rw.
      destruct ((Repository.save _ ;;; _) w) as [[[]|e] w']; [exact Rw|discriminate]. }
    destruct (String.eqb _ "payment_failed").
    { unfold WebhookController.handlePaymentFailed. lookup_by_psp_id F.
      match goal with
      | |- context [(Repository.save ?t ;;; WebhookController.forwardWebhookToMerchant env ?t ?ev ?d) w] =>
          pose proof (save_forward_returns env t ev d w) as E;
          pose proof (save_forward_rows env t ev d w) as Rw;
          destruct ((Repository.save t ;;; WebhookController.forwardWebhookToMerchant env t ev d) w)
            as [[[]|e] w']; [exact Rw|discriminate]
      end. }
    destruct (String.eqb _ "payment_refunded").
    { unfold WebhookController.handlePaymentRefunded. lookup_by_psp_id F.
      match goal with
      | |- context [(Repository.save ?t ;;; WebhookController.forwardWebhookToMerchant env ?t ?ev ?d) w] =>
          pose proof (save_forward_returns env t ev d w) as E;
          pose proof (save_forward_rows env t ev d w) as Rw;
          destruct ((Repository.save t ;;; WebhookController.forwardWebhookToMerchant env t ev d) w)
            as [[[]|e] w']; [exact Rw|discriminate]
      end. }
    reflexivity.
  - destruct (handler_unknown_transaction env data w F) as (P & Fl & R).
    unfold bind.
    destruct (String.eqb _ "payment_paid"); [now rewrite P|].
    destruct (String.eqb _ "payment_failed"); [now rewrite Fl|].
    destruct (String.eqb _ "payment_refunded"); [now rewrite R|].
    reflexivity.
Qed.

Lemma replace_row_idem (tx : Transaction.t) rows :
  Repository.replace_row tx (Repository.replace_row tx rows)
  = Repository.replace_row tx rows.
Proof.
  unfold Repository.replace_row. rewrite map_map. apply map_ext. intros r.
  destruct (Repository.has_id (Transaction.id tx) r) eqn:E; [|now rewrite E].
  now rewrite has_id_refl.
Qed.

(** After the write, the provider's id still leads to the written entity. *)
Lemma find_psp_replace_row i (tx tx' : Transaction.t) rows :
  find (Repository.has_psp_transaction_id i) rows = Some tx ->
  Transaction.id tx' = Transaction.id tx ->
  Transaction.psp_transaction_id tx' = Transaction.psp_transaction_id tx ->
  find (Repository.has_psp_transaction_id i) (Repository.replace_row tx' rows)
  = Some tx'.
Proof.
  intros F Ei Ep.
  assert (T : Repository.has_psp_transaction_id i tx' = true).
  { apply find_some in F as [_ F]. unfold Repository.has_psp_transaction_id in *.
    now rewrite Ep. }
  revert F. unfold Repository.replace_row.
  induction rows as [|r rows IH]; simpl; [discriminate|].
  destruct (Repository.has_psp_transaction_id i r) eqn:Hr.
  - intros E. injection E as ->.
    rewrite Ei, has_id_refl. simpl. now rewrite T.
  - intros F. destruct (Repository.has_id (Transaction.id tx') r); simpl.
    + now rewrite T.
    + rewrite Hr. auto.
Qed.

Lemma written_by_fixed event tx tx' :
  written_by event tx = Some tx' -> fixed_columns tx' = fixed_columns tx.
Proof.
  unfold written_by.
  destruct (String.eqb _ "payment_paid"); [intros E; now injection E as <-|].
  destruct (String.eqb _ "payment_failed"); [intros E; now injection E as <-|].
  destruct (String.eqb _ "payment_refunded"); [|discriminate].
  destruct (WebhookController.refund_covers _ tx); intros E; now injection E as <-.
Qed.

Lemma written_by_idem event tx tx' :
  written_by event tx = Some tx' -> written_by event tx' = Some tx'.
Proof.
  unfold written_by, WebhookController.refund_covers.
  destruct (String.eqb _ "payment_paid"); [intros E; now injection E as <-|].
  destruct (String.eqb _ "payment_failed"); [intros E; now injection E as <-|].
  destruct (String.eqb _ "payment_refunded"); [|discriminate].
  destruct (PaymentData.refunded_amount _) as [a|].
  - destruct (Qle_bool (Transaction.amount tx) _) eqn:L;
      intros E; injection E as <-; simpl; now rewrite L.
  - intros E. now injection E as <-.
Qed.

(** X13. Delivering the same provider event a second time leaves every
    ledger row as the first delivery left it (only the forwarding to the
    merchant is repeated). *)
Theorem webhook_redelivery (env : Env.t) (req : WebhookRequest.t) (w : World.t) :
  let once := snd (WebhookController.handleMoyasarWebhook env req w) in
  let twice := snd (WebhookController.handleMoyasarWebhook env req once) in
  World.transactions twice = World.transactions once.
Proof.
  simpl. rewrite (webhook_rows env req (snd _)). rewrite (webhook_rows env req w).
  destruct (WebhookController.rejects_signature env req); [reflexivity|].
  destruct (find _ (World.transactions w)) as [tx|] eqn:F; [|now rewrite F].
  destruct (written_by (WebhookRequest.body req) tx) as [tx'|] eqn:W;
    [|now rewrite F, W].
  pose proof (written_by_fixed _ _ _ W) as Fx.
  assert (Ei : Transaction.id tx' = Transaction.id tx)
    by (unfold fixed_columns in Fx; congruence).
  assert (Ep : Transaction.psp_transaction_id tx' = Transaction.psp_transaction_id tx)
    by (unfold fixed_columns in Fx; congruence).
  rewrite (find_psp_replace_row _ tx tx' _ F Ei Ep).
  rewrite (written_by_idem _ _ _ W). apply replace_row_idem.
Qed.

(** X14. A [payment_failed] event that matches a row and is not rejected
    leaves that row [FAILED] with the event's message as its error
    message, or [Payment failed] when the event has none or an empty
    one; its amount is untouched. *)
Theorem failed_webhook_records_message
    (env : Env.t) (req : WebhookRequest.t) (w : World.t) (tx : Transaction.t) :
  WebhookController.rejects_signature env req = false ->
  WebhookEvent.type (WebhookRequest.body req) = "payment_failed" ->
  find (Repository.has_psp_transaction_id
          (PaymentData.id (WebhookEvent.data (WebhookRequest.body req))))
    (World.transactions w) = Some tx ->
  exists tx',
    find (Repository.has_id (Transaction.id tx))
      (World.transactions (snd (WebhookController.handleMoyasarWebhook env req w)))
    = Some tx'
    /\ Transaction.status tx' = FAILED
    /\ Transaction.error_message tx'
       = Some (or_string
                 (PaymentData.message (WebhookEvent.data (WebhookRequest.body req)))
                 "Payment failed")
    /\ Transaction.error_message tx' <> Some ""
    /\ Transaction.amount tx' = Transaction.amount tx.
Proof.
  intros Rj Ty F. rewrite webhook_rows, Rj, F.
  unfold written_by. rewrite Ty. simpl.
  destruct (find_psp_has_id _ _ _ F) as [r Hr].
  eexists. split.
  - exact (find_replace_row
             (Transaction.set_error_message (Transaction.set_status tx FAILED) _)
             _ r Hr).
  - simpl. repeat split.
    unfold or_string.
    destruct (PaymentData.message _) as [m|]; [|discriminate].
    destruct m; simpl; discriminate.
Qed.

Lemma failed_webhook_records_message_witness :
  exists tx',
    find (Repository.has_id "txn_1")
      (World.transactions
         (snd (WebhookController.handleMoyasarWebhook Fixture.env
                 (Scenario.webhook None
                    (Scenario.event "payment_failed" "pay_1" None))
                 (Fixture.world PENDING))))
    = Some tx'
    /\ Transaction.error_message tx' = Some "Payment failed".
Proof.
  destruct (failed_webhook_records_message Fixture.env
              (Scenario.webhook None (Scenario.event "payment_failed" "pay_1" None))
              (Fixture.world PENDING) (Scenario.row PENDING)
              eq_refl eq_refl eq_refl) as (tx' & F & _ & M & _).
  exists tx'. split; [exact F|exact M].
Defined.

(** What writing an entity and forwarding the event sends out. *)
Lemma save_forward_outbox env (t : Transaction.t) ev d w m :
  find (fun m => String.eqb (Merchant.id m) (Transaction.merchant_id t))
    (World.merchants w) = Some m ->
  let w' :=
    snd ((Repository.save t ;;;
          WebhookController.forwardWebhookToMerchant env t ev d) w) in
  if truthy_opt truthy_string (Merchant.webhook_url m)
  then exists dl,
         World.outbox w' = (World.outbox w ++ [dl])%list
         /\ Some (Delivery.url dl) = Merchant.webhook_url m
         /\ Delivery.payload dl
            = {| MerchantWebhook.event := ev;
                 MerchantWebhook.transaction_id := Transaction.id t;
                 MerchantWebhook.status := Transaction.status t;
                 MerchantWebhook.amount := Transaction.amount t;
                 MerchantWebhook.currency := Transaction.currency t;
                 MerchantWebhook.created_at := Transaction.created_at t;
                 MerchantWebhook.psp_provider := Transaction.psp_provider t;
                 MerchantWebhook.metadata := Transaction.metadata t;
                 MerchantWebhook.original_data := d |}
         /\ Delivery.signature dl
            = Env.hmac_sha256_hex env (or_string (Merchant.webhook_secret m) "")
                (Env.stringify_envelope env (Delivery.payload dl))
  else World.outbox w' = World.outbox w.
Proof.
  intros F. unfold bind, Repository.save.
  unfold WebhookController.forwardWebhookToMerchant, try_catch, bind,
    Repository.findOne_merchant. simpl. rewrite F.
  destruct (Merchant.webhook_url m) as [u|]; [|reflexivity]. simpl.
  destruct (truthy_string u); [|reflexivity]. simpl.
  unfold WebhookController.axios_post.
  destruct (Env.merchant_endpoint env _); simpl; eexists; repeat split.
Qed.

(** The world an accepted webhook leaves is the one its handler leaves. *)
Lemma webhook_world env req w :
  WebhookController.rejects_signature env req = false ->
  snd (WebhookController.handleMoyasarWebhook env req w)
  = snd ((let event := WebhookRequest.body req in
          if String.eqb (WebhookEvent.type event) "payment_paid"
          then WebhookController.handlePaymentPaid env (WebhookEvent.data event)
          else if String.eqb (WebhookEvent.type event) "payment_failed"
          then WebhookController.handlePaymentFailed env (WebhookEvent.data event)
          else if String.eqb (WebhookEvent.type event) "payment_refunded"
          then WebhookController.handlePaymentRefunded env (WebhookEvent.data event)
          else ret tt) w).
Proof.
  intros Rj. unfold WebhookController.handleMoyasarWebhook, PaymentController.respond.
  rewrite Rj. unfold bind. simpl.
  match goal with
  | |- context [let (c, w') := let (c', w'') := ?h w in _ in _] =>
      destruct (h w) as [[[]|e] w']; reflexivity
  end.
Qed.

(** X15. When a provider event is accepted, matches a row and has a
    handler, the row's merchant is sent exactly one request if it has a
    webhook URL, none otherwise. The envelope names the ledger key (not
    the provider's id), the status just written and the stored amount, and
    its signature is the HMAC of the serialized envelope under the
    merchant's secret (the empty string when it has none), so the
    connector's own verification accepts it. This holds whether or not the
    merchant's endpoint accepts the request. *)
Theorem webhook_forwarding
    (env : Env.t) (req : WebhookRequest.t) (w : World.t)
    (tx tx' : Transaction.t) (m : Merchant.t) :
  WebhookController.rejects_signature env req = false ->
  find (Repository.has_psp_transaction_id
          (PaymentData.id (WebhookEvent.data (WebhookRequest.body req))))
    (World.transactions w) = Some tx ->
  written_by (WebhookRequest.body req) tx = Some tx' ->
  find (fun m => String.eqb (Merchant.id m) (Transaction.merchant_id tx))
    (World.merchants w) = Some m ->
  let w' := snd (WebhookController.handleMoyasarWebhook env req w) in
  if truthy_opt truthy_string (Merchant.webhook_url m)
  then exists dl,
         World.outbox w' = (World.outbox w ++ [dl])%list
         /\ Some (Delivery.url dl) = Merchant.webhook_url m
         /\ MerchantWebhook.transaction_id (Delivery.payload dl) = Transaction.id tx
         /\ MerchantWebhook.status (Delivery.payload dl) = Transaction.status tx'
         /\ MerchantWebhook.amount (Delivery.payload dl) = Transaction.amount tx
         /\ MerchantWebhook.original_data (Delivery.payload dl)
            = WebhookEvent.data (WebhookRequest.body req)
         /\ MoyasarConnector.verifyWebhookSignature env
              (Env.stringify_envelope env (Delivery.payload dl))
              (Delivery.signature dl)
              (or_string (Merchant.webhook_secret m) "") = true
  else World.outbox w' = World.outbox w.
Proof.
  intros Rj F W M. simpl.
  set (data := WebhookEvent.data (WebhookRequest.body req)) in *.
  assert (G : forall t ev,
             t = tx' ->
             let w' := snd ((Repository.save t ;;;
                             WebhookController.forwardWebhookToMerchant env t ev data) w) in
             if truthy_opt truthy_string (Merchant.webhook_url m)
             then exists dl,
                 World.outbox w' = (World.outbox w ++ [dl])%list
                 /\ Some (Delivery.url dl) = Merchant.webhook_url m
                 /\ MerchantWebhook.transaction_id (Delivery.payload dl) = Transaction.id tx
                 /\ MerchantWebhook.status (Delivery.payload dl) = Transaction.status tx'
                 /\ MerchantWebhook.amount (Delivery.payload dl) = Transaction.amount tx
                 /\ MerchantWebhook.original_data (Delivery.payload dl) = data
                 /\ MoyasarConnector.verifyWebhookSignature env
                      (Env.stringify_envelope env (Delivery.payload dl))
                      (Delivery.signature dl)
                      (or_string (Merchant.webhook_secret m) "") = true
             else World.outbox w' = World.outbox w).
  { intros t ev ->. pose proof (written_by_fixed _ _ _ W) as Fx.
    assert (M' : find (fun m => String.eqb (Merchant.id m) (Transaction.merchant_id tx'))
                   (World.merchants w) = Some m)
      by (unfold fixed_columns in Fx; replace (Transaction.merchant_id tx')
            with (Transaction.merchant_id tx) by congruence; exact M).
    pose proof (save_forward_outbox env tx' ev data w m M') as O. simpl in *.
    destruct (truthy_opt truthy_string (Merchant.webhook_url m)); [|exact O].
    destruct O as (dl & O1 & O2 & O3 & O4). exists dl.
    unfold fixed_columns in Fx.
    split; [exact O1|]. split; [exact O2|].
    repeat split; try (rewrite O3; simpl; congruence).
    unfold MoyasarConnector.verifyWebhookSignature. rewrite O4.
    apply String.eqb_refl. }
  rewrite (webhook_world env req w Rj). fold data.
  revert W. unfold written_by. fold data.
  destruct (String.eqb _ "payment_paid").
  { intros W. injection W as W.
    unfold WebhookController.handlePaymentPaid. lookup_by_psp_id F.
    exact (G _ "payment.paid" W). }
  destruct (String.eqb _ "payment_failed").
  { intros W. injection W as W.
    unfold WebhookController.handlePaymentFailed. lookup_by_psp_id F.
    exact (G _ "payment.failed" W). }
  destruct (String.eqb _ "payment_refunded"); [|discriminate].
  intros W. injection W as W.
  unfold WebhookController.handlePaymentRefunded. lookup_by_psp_id F.
  exact (G _ "payment.refunded" W).
Qed.

Lemma webhook_forwarding_witness :
  exists dl,
    World.outbox
      (snd (WebhookController.handleMoyasarWebhook Fixture.env_merchant_down
              Fixture.paid_event (Fixture.world PENDING))) = [dl]
    /\ Delivery.url dl = "https://a.example.com/hook"
    /\ MerchantWebhook.status (Delivery.payload dl) = PAID.
Proof.
  pose proof (webhook_forwarding Fixture.env_merchant_down Fixture.paid_event
                (Fixture.world PENDING) (Scenario.row PENDING)
                (Scenario.row PAID) Fixture.merchant_A
                eq_refl eq_refl eq_refl eq_refl) as H.
  simpl in H. destruct H as (dl & O & U & _ & S & _).
  exists dl. split; [exact O|]. split; [now injection U|exact S].
Defined.

(** ** Listing a merchant's payments *)

Lemma in_firstn_skipn {A} (x : A) n k l :
  In x (firstn n (skipn k l)) -> In x l.
Proof.
  intros H.
  rewrite <- (firstn_skipn k l). apply in_or_app. right.
  rewrite <- (firstn_skipn n (skipn k l)). apply in_or_app. now left.
Qed.

Section Listing.
Variable order : list Transaction.t -> list Transaction.t.
Hypothesis order_permutes : forall rows, Permutation (order rows) rows.

Lemma listed_rows merchantId filters w result w' :
  Queries.getTransactions order merchantId filters w = (Returned result, w') ->
  w' = w
  /\ (length result
      <= Z.to_nat
           (or_integer
              (match filters with Some f => Filters.limit f | None => None end) 50))%nat
  /\ forall tx, In tx result ->
       In tx (World.transactions w)
       /\ Queries.selected merchantId filters tx = true.
Proof.
  unfold Queries.getTransactions.
  destruct (_ || _); [discriminate|].
  intros E. injection E as <- <-. split; [reflexivity|]. split.
  - apply firstn_le_length.
  - intros tx H. apply in_firstn_skipn in H.
    apply (Permutation_in _ (order_permutes _)) in H.
    now apply filter_In in H.
Qed.

End Listing.

(** X16. [getTransactions] reads only: it returns rows of the ledger that
    belong to the given merchant and, when a status filter is given, have
    that status; never more than the limit, which is 50 when the limit is
    absent or 0. This holds for any ordering the database applies. *)
Theorem getTransactions_isolation
    (order : list Transaction.t -> list Transaction.t)
    (merchantId : string) (filters : option Filters.t)
    (w w' : World.t) (result : list Transaction.t) :
  (forall rows, Permutation (order rows) rows) ->
  Queries.getTransactions order merchantId filters w = (Returned result, w') ->
  w' = w
  /\ (length result
      <= Z.to_nat
           (or_integer
              (match filters with Some f => Filters.limit f | None => None end) 50))%nat
  /\ forall tx, In tx result ->
       In tx (World.transactions w)
       /\ Transaction.merchant_id tx = merchantId
       /\ forall f s, filters = Some f -> Filters.status f = Some s ->
                      Transaction.status tx = s.
Proof.
  intros P H. destruct (listed_rows order P _ _ _ _ _ H) as (E & L & I).
  split; [exact E|]. split; [exact L|].
  intros tx Hin. destruct (I tx Hin) as [Hr Hs]. split; [exact Hr|].
  unfold Queries.selected in Hs. apply andb_prop in Hs as [Hm Hs].
  split; [now apply String.eqb_eq|].
  intros f s -> Fs. rewrite Fs in Hs. now apply PaymentStatus_eqb_eq.
Qed.

Lemma getTransactions_isolation_witness :
  Queries.getTransactions (fun rows => rows) "B" None (Fixture.world PAID)
  = (Returned [Fixture.row_B], Fixture.world PAID)
  /\ Transaction.merchant_id Fixture.row_B = "B".
Proof.
  split; [reflexivity|].
  destruct (getTransactions_isolation (fun rows => rows) "B" None
              (Fixture.world PAID) _ _ (fun rows => Permutation_refl rows) eq_refl)
    as (_ & _ & I).
  exact (proj1 (proj2 (I Fixture.row_B (or_introl eq_refl)))).
Defined.

(** ** The protected routes *)

(** X17. A protected route whose [Authorization] header is not
    [Bearer <key>] for the key of an active merchant answers 401 or 403
    from the middleware; the controller does not run and the world is
    unchanged (no row created, no provider-driven write). *)
Theorem protected_routes_need_a_key
    (env : Env.t) (parseInt : string -> option Z)
    (order : list Transaction.t -> list Transaction.t)
    (authorization : option string) (w : World.t)
    (handler : Merchant.t -> World.t -> Reply * World.t) :
  (forall m, In m (World.merchants w) -> Merchant.active m = true ->
             authorization <> Some ("Bearer " ++ Merchant.api_key m)) ->
  snd (Routes.protected authorization handler w) = w
  /\ (Reply_status (fst (Routes.protected authorization handler w)) = 401%nat
      \/ Reply_status (fst (Routes.protected authorization handler w)) = 403%nat)
  /\ forall errors body id refund status limit offset,
       snd (Routes.post_payments env authorization errors body w) = w
       /\ snd (Routes.get_payment env authorization id w) = w
       /\ snd (Routes.post_refund env authorization id refund w) = w
       /\ snd (Routes.get_payments parseInt order authorization status limit offset w)
          = w.
Proof.
  intros N.
  assert (G : forall h, snd (Routes.protected authorization h w) = w
              /\ (Reply_status (fst (Routes.protected authorization h w)) = 401%nat
                  \/ Reply_status (fst (Routes.protected authorization h w)) = 403%nat)).
  { intros h. unfold Routes.protected.
    destruct (Auth.authenticateApiKey authorization w) as [[m|s e msg] w1] eqn:A.
    - destruct (authenticate_next _ _ _ _ A) as (_ & Hin & Act & Hdr).
      elim (N m Hin Act Hdr).
    - destruct (authenticate_cases authorization w) as [W R].
      rewrite A in W, R. simpl in W, R. subst w1. simpl. split; [reflexivity|].
      destruct authorization as [h0|]; [|now left].
      destruct (String.prefix "Bearer " h0); [|now left].
      destruct (find _ (World.merchants w)); [right; tauto|now left]. }
  split; [apply G|]. split; [apply G|].
  intros. repeat split; apply G.
Qed.

Lemma createPayment_endpoint env req w :
  let out := Endpoints.createPayment env req w in
  World.transactions (snd out) = World.transactions w
  \/ exists row m,
       World.transactions (snd out) = (World.transactions w ++ [row])%list
       /\ Endpoints.CreateRequest.errors req = []
       /\ Endpoints.CreateRequest.merchant req = Some m
       /\ Transaction.merchant_id row = Merchant.id m
       /\ Transaction.amount row
          = PaymentRequest.amount (Endpoints.CreateRequest.body req)
       /\ Reply_status (fst out) = 201%nat.
Proof.
  simpl. unfold Endpoints.createPayment, settle.
  destruct (Endpoints.CreateRequest.errors req) as [|e es] eqn:Er; simpl;
    [|now left].
  unfold bind at 1. unfold Endpoints.merchant_id.
  destruct (Endpoints.CreateRequest.merchant req) as [m|]; simpl; [|now left].
  unfold bind.
  destruct (PaymentService.createPayment env (Merchant.id m) _ w)
    as [[r|e] w1] eqn:C; simpl.
  - destruct (createPayment_returned _ _ _ _ _ _ C)
      as (data & row & _ & _ & Rows & _ & _ & _ & M & _ & _ & Am & _).
    right. exists row, m. rewrite C. simpl. repeat split; auto.
  - rewrite C. simpl.
    left. destruct (createPayment_rows env (Merchant.id m)
                      (Endpoints.CreateRequest.body req) w) as [H|(row & H & _)];
      rewrite C in H; simpl in H; [exact H|].
    exfalso. revert C.
    unfold PaymentService.createPayment, try_catch.
    rewrite (bind_returned _ _ w MOYASAR w (selectPSP_MOYASAR _ w)).
    unfold bind, await, PaymentService.getPSPConnector. simpl.
    destruct (MoyasarConnector.createPayment env _) as [p|e'].
    + unfold Repository.enum_column.
      destruct (PaymentResponse.status p); [discriminate|].
      unfold throw. intros C. injection C as _ <-.
      apply (f_equal (@length _)) in H. rewrite length_app in H. simpl in H. lia.
    + unfold throw. intros C. injection C as _ <-.
      apply (f_equal (@length _)) in H. rewrite length_app in H. simpl in H. lia.
Qed.

(** X18. [POST /payments] writes a row only for a request that passed
    authentication and validation, and then exactly one: it is appended,
    owned by the merchant whose key is in the header, holds the requested
    amount, and the answer is 201. A request with validation errors or
    without a valid key creates nothing. *)
Theorem post_payments_creates_for_the_caller
    (env : Env.t) (authorization : option string) (errors : list string)
    (body : PaymentRequest.t) (w : World.t) :
  let out := Routes.post_payments env authorization errors body w in
  World.transactions (snd out) = World.transactions w
  \/ exists row m,
       World.transactions (snd out) = (World.transactions w ++ [row])%list
       /\ errors = []
       /\ In m (World.merchants w)
       /\ Merchant.active m = true
       /\ authorization = Some ("Bearer " ++ Merchant.api_key m)
       /\ Transaction.merchant_id row = Merchant.id m
       /\ Transaction.amount row = PaymentRequest.amount body
       /\ Reply_status (fst out) = 201%nat.
Proof.
  simpl. unfold Routes.post_payments, Routes.protected.
  destruct (Auth.authenticateApiKey authorization w) as [[m|s e msg] w1] eqn:A.
  - destruct (authenticate_next _ _ _ _ A) as (-> & Hin & Act & Hdr).
    destruct (createPayment_endpoint env
                {| Endpoints.CreateRequest.errors := errors;
                   Endpoints.CreateRequest.merchant := Some m;
                   Endpoints.CreateRequest.body := body |} w)
      as [H|(row & m' & H1 & H2 & H3 & H4 & H5 & H6)]; [now left|].
    right. simpl in *. injection H3 as <-. exists row, m. repeat split; auto.
  - left. destruct (authenticate_cases authorization w) as [W _].
    rewrite A in W. simpl in *. now subst.
Qed.

(** X19. [GET /payments] answers a list only to an authenticated active
    merchant, and every row in it is a ledger row of that merchant; the
    count is the length of the list and the world is unchanged. This holds
    for any [parseInt] and any ordering the database applies. *)
Theorem get_payments_lists_own_rows
    (parseInt : string -> option Z)
    (order : list Transaction.t -> list Transaction.t)
    (authorization status limit offset : option string)
    (w w' : World.t) (data : list Transaction.t) (count : nat) :
  (forall rows, Permutation (order rows) rows) ->
  Routes.get_payments parseInt order authorization status limit offset w
  = (Listed data count, w') ->
  w' = w
  /\ count = length data
  /\ exists m,
       In m (World.merchants w)
       /\ Merchant.active m = true
       /\ authorization = Some ("Bearer " ++ Merchant.api_key m)
       /\ forall tx, In tx data ->
            In tx (World.transactions w)
            /\ Transaction.merchant_id tx = Merchant.id m.
Proof.
  intros P. unfold Routes.get_payments, Routes.protected.
  destruct (Auth.authenticateApiKey authorization w) as [[m|s e msg] w1] eqn:A;
    [|discriminate].
  destruct (authenticate_next _ _ _ _ A) as (-> & Hin & Act & Hdr).
  unfold Endpoints.listPayments, settle. simpl.
  unfold bind at 1. simpl. unfold bind at 1.
  destruct (Endpoints.status_filter status w) as [[s|e] w1] eqn:S; [|discriminate].
  assert (w1 = w) as ->.
  { revert S. unfold Endpoints.status_filter.
    destruct status as [q|]; [|now intros E; injection E].
    destruct (negb (truthy_string q)); [now intros E; injection E|].
    destruct (find _ _); [now intros E; injection E|discriminate]. }
  unfold bind.
  destruct (Queries.getTransactions order (Merchant.id m) _ w) as [[l|e] w1] eqn:Q;
    [|discriminate].
  destruct (listed_rows order P _ _ _ _ _ Q) as (-> & _ & I).
  simpl. intros E. injection E as <- <- <-.
  repeat split; auto. exists m. repeat split; auto; [now apply I|].
  destruct (I tx H) as [_ Sel]. unfold Queries.selected in Sel.
  apply andb_prop in Sel as [Sel _]. now apply String.eqb_eq.
Qed.

Lemma get_payments_lists_own_rows_witness :
  Routes.get_payments (fun _ => None) (fun rows => rows) (Some "Bearer pk_test_A")
    None None None (Fixture.world PAID)
  = (Listed [Scenario.row PAID] 1, Fixture.world PAID)
  /\ exists m,
       Some "Bearer pk_test_A" = Some ("Bearer " ++ Merchant.api_key m)
       /\ Transaction.merchant_id (Scenario.row PAID) = Merchant.id m.
Proof.
  split; [reflexivity|].
  destruct (get_payments_lists_own_rows (fun _ => None) (fun rows => rows)
              (Some "Bearer pk_test_A") None None None (Fixture.world PAID) _ _ _
              (fun rows => Permutation_refl rows) eq_refl)
    as (_ & _ & m & _ & _ & K & I).
  exists m. split; [exact K|].
  exact (proj2 (I (Scenario.row PAID) (or_introl eq_refl))).
Defined.

Lemma protected_routes_need_a_key_witness :
  snd (Routes.post_payments Fixture.env (Some "Bearer pk_test_C") []
         (Scenario.request 12.34%Q) (Fixture.world PAID))
  = Fixture.world PAID
  /\ Reply_status
       (fst (Routes.post_payments Fixture.env (Some "Bearer pk_test_C") []
               (Scenario.request 12.34%Q) (Fixture.world PAID))) = 403%nat.
Proof.
  assert (N : forall m, In m (World.merchants (Fixture.world PAID)) ->
                Merchant.active m = true ->
                Some "Bearer pk_test_C" <> Some ("Bearer " ++ Merchant.api_key m)).
  { intros m [<-|[<-|[<-|[]]]] A; discriminate. }
  destruct (protected_routes_need_a_key Fixture.env (fun _ => None) (fun rows => rows)
              (Some "Bearer pk_test_C") (Fixture.world PAID)
              (fun _ w => (ValidationErrors [], w)) N) as (_ & _ & R).
  split; [exact (proj1 (R [] (Scenario.request 12.34%Q) "" None None None None))|].
  reflexivity.
Defined.

(** ** Refund amounts at the edges *)

(** The provider's answer behind a refund that returned. *)
Lemma refundPayment_provider env id req w resp w' tx :
  find (Repository.has_id id) (World.transactions w) = Some tx ->
  PaymentService.refundPayment env id req w = (Returned resp, w') ->
  MoyasarConnector.refundPayment env
    (PaymentService.path_segment (Transaction.psp_transaction_id tx)) req
  = Returned resp.
Proof.
  intros F.
  unfold PaymentService.refundPayment, try_catch, bind, Repository.findOne_id.
  rewrite F.
  destruct (negb _); [unfold throw; discriminate|].
  unfold await, PaymentService.getPSPConnector.
  destruct (Transaction.psp_provider tx); try (unfold throw; discriminate).
  simpl.
  destruct (MoyasarConnector.refundPayment env _ req) as [r|e];
    [|unfold throw; discriminate].
  unfold ret. simpl. intros E. now injection E as <- _.
Qed.

(** X20. A refund without an amount, or with amount 0, is a full refund:
    the provider is sent no amount, and when it accepts the row becomes
    [REFUNDED]. *)
Theorem refund_without_amount_is_full
    (env : Env.t) (id : string) (req : option RefundRequest.t)
    (w w' : World.t) (resp : RefundResponse.t) (tx : Transaction.t) :
  find (Repository.has_id id) (World.transactions w) = Some tx ->
  truthy_opt truthy_number
    (match req with Some r => RefundRequest.amount r | None => None end) = false ->
  PaymentService.refundPayment env id req w = (Returned resp, w') ->
  status_of id w' = Some REFUNDED
  /\ exists payload data,
       RefundPayload.amount payload = None
       /\ Env.post_refund env
            (PaymentService.path_segment (Transaction.psp_transaction_id tx))
            payload = inr data.
Proof.
  intros F Z H.
  destruct (refundPayment_returned _ _ _ _ _ _ H) as (tx0 & F0 & _ & S).
  rewrite F in F0. injection F0 as <-.
  split.
  - rewrite S. f_equal. unfold refund_outcome, or_number.
    assert (L : Qle_bool (Transaction.amount tx) (Transaction.amount tx) = true)
      by (apply Qle_bool_iff, Qle_refl).
    destruct req as [[[a|] r]|]; simpl in *; try (now rewrite L).
    rewrite Z. now rewrite L.
  - pose proof (refundPayment_provider _ _ _ _ _ _ _ F H) as C.
    unfold MoyasarConnector.refundPayment in C.
    match type of C with
    | match Env.post_refund env ?p ?payload with _ => _ end = _ =>
        destruct (Env.post_refund env p payload) as [e|data] eqn:P;
        [discriminate|exists payload, data]
    end.
    split; [|exact P]. simpl.
    destruct req as [[[a|] r]|]; simpl in *; try reflexivity. now rewrite Z.
Qed.

Lemma refund_without_amount_is_full_witness :
  status_of "txn_1"
    (snd (PaymentService.refundPayment Fixture.env "txn_1" (Scenario.refund 0%Q)
            (Fixture.world PAID)))
  = Some REFUNDED.
Proof.
  destruct (PaymentService.refundPayment Fixture.env "txn_1" (Scenario.refund 0%Q)
              (Fixture.world PAID)) as [[resp|e] w'] eqn:H;
    [|vm_compute in H; discriminate].
  exact (proj1 (refund_without_amount_is_full Fixture.env "txn_1"
                  (Scenario.refund 0%Q) (Fixture.world PAID) w' resp
                  (Scenario.row PAID) eq_refl eq_refl H)).
Defined.

Lemma Math_round_negative (x : number) : (x < 0)%Q -> Math_round x <= 0.
Proof.
  intros H. unfold Math_round.
  assert (L : (x + (1 # 2) <= inject_Z 0 + (1 # 2))%Q).
  { apply Qplus_le_l. now apply Qlt_le_weak. }
  apply Qfloor_resp_le in L.
  change (inject_Z 0 + (1 # 2))%Q with (1 # 2)%Q in L.
  exact L.
Qed.

(** X21. The service does not check the sign of a refund amount: a
    negative amount is sent to the provider as a non-positive number of
    halalas, and if the provider accepts it a row with a non-negative
    amount becomes [PARTIALLY_REFUNDED]. *)
Theorem negative_refund_is_passed_on
    (env : Env.t) (id : string) (r : number) (reason : option string)
    (w w' : World.t) (resp : RefundResponse.t) (tx : Transaction.t) :
  find (Repository.has_id id) (World.transactions w) = Some tx ->
  (r < 0)%Q ->
  (0 <= Transaction.amount tx)%Q ->
  PaymentService.refundPayment env id
    (Some {| RefundRequest.amount := Some r; RefundRequest.reason := reason |}) w
  = (Returned resp, w') ->
  status_of id w' = Some PARTIALLY_REFUNDED
  /\ exists payload data halalas,
       RefundPayload.amount payload = Some halalas
       /\ halalas <= 0
       /\ Env.post_refund env
            (PaymentService.path_segment (Transaction.psp_transaction_id tx))
            payload = inr data.
Proof.
  intros F Neg Pos H.
  assert (T : truthy_number r = true).
  { unfold truthy_number. apply negb_true_iff.
    destruct (Qeq_bool r 0) eqn:E; [|reflexivity].
    apply Qeq_bool_iff in E. rewrite E in Neg. now apply Qlt_irrefl in Neg. }
  destruct (refundPayment_returned _ _ _ _ _ _ H) as (tx0 & F0 & _ & S).
  rewrite F in F0. injection F0 as <-.
  split.
  - rewrite S. f_equal. unfold refund_outcome, or_number. simpl. rewrite T.
    destruct (Qle_bool (Transaction.amount tx) r) eqn:L; [|reflexivity].
    apply Qle_bool_iff in L.
    exfalso. apply (Qlt_irrefl 0). eapply Qle_lt_trans; [|exact Neg].
    eapply Qle_trans; eauto.
  - pose proof (refundPayment_provider _ _ _ _ _ _ _ F H) as C.
    unfold MoyasarConnector.refundPayment in C. simpl in C. rewrite T in C.
    match type of C with
    | match Env.post_refund env ?p ?payload with _ => _ end = _ =>
        destruct (Env.post_refund env p payload) as [e|data] eqn:P;
        [discriminate|exists payload, data, (MoyasarConnector.toHalalas r)]
    end.
    split; [reflexivity|]. split; [|exact P].
    unfold MoyasarConnector.toHalalas. apply Math_round_negative.
    setoid_replace 0%Q with (0 * 100)%Q by reflexivity.
    apply Qmult_lt_compat_r; [reflexivity|exact Neg].
Qed.

Lemma negative_refund_is_passed_on_witness :
  status_of "txn_1"
    (snd (PaymentService.refundPayment Fixture.env "txn_1"
            (Scenario.refund (-5)%Q) (Fixture.world PAID)))
  = Some PARTIALLY_REFUNDED.
Proof.
  destruct (PaymentService.refundPayment Fixture.env "txn_1"
              (Scenario.refund (-5)%Q) (Fixture.world PAID))
    as [[resp|e] w'] eqn:H; [|vm_compute in H; discriminate].
  refine (proj1 (negative_refund_is_passed_on Fixture.env "txn_1" (-5)%Q None
                   (Fixture.world PAID) w' resp (Scenario.row PAID)
                   eq_refl _ _ H)).
  - reflexivity.
  - discriminate.
Defined.

(** ** The amount a create reports *)



(** ** Polling twice *)

Lemma PaymentStatus_eqb_refl s : PaymentStatus_eqb s s = true.
Proof. now apply PaymentStatus_eqb_eq. Qed.

(** X23. Polling a transaction again while the provider's answer is the
    same returns the same result and writes nothing more: the second
    [getPayment] leaves the world the first one left. *)
Theorem getPayment_twice (env : Env.t) (id : string) (w : World.t) :
  PaymentService.getPayment env id (snd (PaymentService.getPayment env id w))
  = PaymentService.getPayment env id w.
Proof.
  destruct (PaymentService.getPayment env id w) as [c w1] eqn:E. simpl.
  assert (S : w1 = w -> PaymentService.getPayment env id w1 = (c, w1))
    by (intros ->; exact E).
  revert E.
  unfold PaymentService.getPayment at 1.
  unfold try_catch, bind, Repository.findOne_id, await.
  destruct (find (Repository.has_id id) (World.transactions w)) as [tx|] eqn:F;
    [|intros E; apply S; now injection E].
  destruct (PaymentService.getPSPConnector env (Transaction.psp_provider tx))
    as [k|e] eqn:G; [|intros E; apply S; now injection E].
  destruct (PaymentService.connector_getPayment k _) as [r|e] eqn:C;
    [|intros E; apply S; now injection E].
  destruct (PaymentService.status_differs (PaymentResponse.status r)
              (Transaction.status tx)) eqn:D;
    [|intros E; apply S; now injection E].
  unfold Repository.enum_column.
  destruct (PaymentResponse.status r) as [s|key] eqn:St;
    [|intros E; apply S; now injection E].
  simpl. intros E. injection E as <- <-. clear S.
  pose proof (find_has_id_eq _ _ _ F) as Hid. subst id.
  unfold PaymentService.getPayment, try_catch, bind, Repository.findOne_id, await.
  pose proof (find_replace_row (Transaction.set_status tx s) _ tx F) as FR.
  change (Transaction.id (Transaction.set_status tx s))
    with (Transaction.id tx) in FR.
  cbn [World.transactions Repository.with_transactions Repository.save fst snd].
  rewrite FR. cbn [Transaction.psp_provider Transaction.psp_transaction_id
                   Transaction.set_status Transaction.status Transaction.id].
  rewrite G, C, St. simpl.
  rewrite PaymentStatus_eqb_refl. reflexivity.
Qed.
